(** * kz.py: the two [WorkingHourManager] variants over a connection capability

    A shallow embedding of [src/kz.py].  The Python module defines a stub
    [Connection], a [DbManager] that hands out connections, and two classes
    named [WorkingHourManager]: a first version that opens its connection in
    [__init__] and a second version whose methods are wrapped by the
    [prepare_connection] decorator.

    Python objects are modelled as follows.
    - A Python value is a [value]: [None], an [int], a [str] or a [tuple].
      Floats are not modelled.
    - A call either returns or raises: [outcome].
    - The process state is a [World]: what was written to standard output,
      the state of the store behind the connections, the counter that gives
      every [Connection()] its identity, and the chronological record of the
      calls made on the collaborators ([DbManager.open_connection],
      [Connection.execute], [Connection.commit], [Connection.close]).
    - The statements of a method are actions of the monad [M].
    - The store behind a connection is not part of the source, whose
      [Connection] only prints.  The managers are therefore written over any
      connection class ([ConnectionClass]); the source's stub is one
      ([Connection], over what its base class is), and a small relational
      store that reads and runs the
      three SQL texts of the source is another ([Sql.SqlConnection]). *)

From Stdlib Require Import ZArith String Ascii List Lia Bool.
From stdpp Require Import base option strings list gmap.
Import ListNotations.

Set Warnings "-register-all".

Local Open Scope Z_scope.
Local Open Scope string_scope.
Local Open Scope list_scope.

(** ** Python values, exceptions, outcomes *)

Inductive value : Type :=
| VNone
| VInt (z : Z)
| VStr (s : string)
| VTuple (items : list value).

Inductive exn : Type :=
| AttributeError   (* attribute looked up on an object that lacks it *)
| TypeError
| ValueError
| NameError
| OverflowError    (* an [int] too large for where it is put *)
| QueryError.      (* raised by the driver: a text that is no statement, an unknown
                      table or column, a wrong number of arguments, an argument
                      of a type that cannot be bound *)

Inductive outcome (A : Type) : Type :=
| Returns (a : A)
| Raises (e : exn).
Arguments Returns {A} a.
Arguments Raises {A} e.

(** What [Connection.execute] hands back: the stub returns [None]; a real
    driver returns a result handle holding the rows still to be fetched, each
    row already in the shape the driver presents it to Python. *)
Inductive handle : Type :=
| NoHandle
| Cursor (rows : list value).

(** ** The world *)

Definition conn_id := nat.

Inductive event : Type :=
| EvOpen (c : conn_id)
| EvExecute (c : conn_id) (query : string) (params : list value)
| EvCommit (c : conn_id)
| EvClose (c : conn_id).

Section Core.

(** The state of the store behind the connections. *)
Context {Store : Type}.

(** What a collaborator can see and change: standard output and the store. *)
Record Proc : Type := mkProc {
  stdout : list (list value);
  store : Store
}.

(** The connection capability: a class with the three methods of class
    [Connection].  [conn_new] is what instantiating the class raises, when
    [Connection()] fails.  [commit] and [close] cannot fail (the source's are
    [pass]). *)
Record ConnectionClass : Type := mkConnectionClass {
  conn_new : option exn;
  conn_execute : string -> list value -> Proc -> Proc * outcome handle;
  conn_commit : Proc -> Proc;
  conn_close : Proc -> Proc
}.

Record World : Type := mkWorld {
  proc : Proc;
  next_conn : conn_id;
  calls : list event
}.

Definition M (A : Type) : Type := World -> World * outcome A.

Definition ret {A} (a : A) : M A := fun w => (w, Returns a).
Definition raise {A} (e : exn) : M A := fun w => (w, Raises e).
Definition bind {A B} (m : M A) (k : A -> M B) : M B :=
  fun w => match m w with
           | (w', Returns a) => k a w'
           | (w', Raises e) => (w', Raises e)
           end.

(** An operation that neither reads nor changes the world. *)
Definition lift {A} (r : outcome A) : M A := fun w => (w, r).

Definition record_call (e : event) (w : World) : World :=
  mkWorld (proc w) (next_conn w) (calls w ++ [e]).

(** [print] with its arguments: one line of standard output, kept as the
    list of the arguments. *)
Definition print (args : list value) : M unit :=
  fun w => (mkWorld (mkProc (stdout (proc w) ++ [args]) (store (proc w)))
                    (next_conn w) (calls w), Returns tt).

(** The class that the name [Connection] denotes when a connection is used. *)
Variable Connection : ConnectionClass.

(** [conn.execute(query, params)] *)
Definition execute (c : conn_id) (query : string) (params : list value) : M handle :=
  fun w => let w1 := record_call (EvExecute c query params) w in
           let (p, r) := conn_execute Connection query params (proc w1) in
           (mkWorld p (next_conn w1) (calls w1), r).

(** [conn.commit()] and [conn.close()] *)
Definition commit (c : conn_id) : M unit :=
  fun w => let w1 := record_call (EvCommit c) w in
           (mkWorld (conn_commit Connection (proc w1)) (next_conn w1) (calls w1),
            Returns tt).

Definition close (c : conn_id) : M unit :=
  fun w => let w1 := record_call (EvClose c) w in
           (mkWorld (conn_close Connection (proc w1)) (next_conn w1) (calls w1),
            Returns tt).

(** [h.fetchone()]: [None] has no such attribute; a result handle gives its
    first row, or [None] when there is none. *)
Definition fetchone (h : handle) : M value :=
  match h with
  | NoHandle => raise AttributeError
  | Cursor rows => ret (hd VNone rows)
  end.

End Core.

Arguments Proc Store : clear implicits.
Arguments ConnectionClass Store : clear implicits.
Arguments World Store : clear implicits.
Arguments M Store A : clear implicits.

Notation "x <- m ;; k" := (bind m (fun x => k))
  (at level 100, m at next level, right associativity).
Notation "m ;;; k" := (bind m (fun _ => k))
  (at level 100, right associativity).

(** [class DbManager].  [open_connection] returns [Connection()]: when the
    class can be instantiated, a new object each time, told apart from every
    other by its [conn_id]; when it cannot, the exception of the failed
    instantiation, and no object.  The class has no state, so its one
    instance, the class attribute [_db_manager] of both managers, is not
    represented. *)
Module DbManager.

Definition open_connection {Store : Type} (Connection : ConnectionClass Store)
    : M Store conn_id :=
  fun w =>
    match conn_new Connection with
    | Some ex => (w, Raises ex)
    | None =>
        let c := next_conn w in
        (mkWorld (proc w) (S c) (calls w ++ [EvOpen c]), Returns c)
    end.

End DbManager.

(** ** Python operators used by [salary] *)

(** The characters of a [str].  A [string] holds the text as UTF-8 bytes; a
    byte of the form 10xxxxxx continues the character before it. *)
Definition is_continuation (c : ascii) : bool :=
  let n := nat_of_ascii c in ((128 <=? n) && (n <? 192))%nat.

(** The continuation bytes at the head of [s], and the characters after them. *)
Fixpoint chars_from (s : string) : string * list string :=
  match s with
  | EmptyString => (EmptyString, [])
  | String c rest =>
      let r := chars_from rest in
      if is_continuation c then (String c (fst r), snd r)
      else (EmptyString, String c (fst r) :: snd r)
  end.

Definition characters (s : string) : list string :=
  match chars_from s with
  | (EmptyString, chars) => chars
  | (stray, chars) => stray :: chars
  end.

(** [a, b = v]: [v] must be an iterable of exactly two items; a [str]
    iterates over its characters. *)
Definition unpack2 (v : value) : outcome (value * value) :=
  match v with
  | VTuple [a; b] => Returns (a, b)
  | VTuple _ => Raises ValueError
  | VStr s =>
      match characters s with
      | [a; b] => Returns (VStr a, VStr b)
      | _ => Raises ValueError
      end
  | VNone | VInt _ => Raises TypeError
  end.

Fixpoint repeat_str (n : nat) (s : string) : string :=
  match n with
  | O => EmptyString
  | S n' => String.append s (repeat_str n' s)
  end.

Fixpoint repeat_items (n : nat) (l : list value) : list value :=
  match n with
  | O => []
  | S n' => l ++ repeat_items n' l
  end.

(** [a * b] on the modelled values: integer product, sequence repetition
    when one side is an [int] and the other a [str] or [tuple], [TypeError]
    otherwise (in particular whenever one side is [None]). *)
Definition py_mul (a b : value) : outcome value :=
  match a, b with
  | VInt x, VInt y => Returns (VInt (x * y))
  | VStr s, VInt n | VInt n, VStr s => Returns (VStr (repeat_str (Z.to_nat n) s))
  | VTuple l, VInt n | VInt n, VTuple l => Returns (VTuple (repeat_items (Z.to_nat n) l))
  | _, _ => Raises TypeError
  end.

(** ** The statements sent to the store, as the source spells them *)

Definition log_query : string :=
  "INSERT INTO working_log (employee_id, time) VALUES (?, ?)".

Definition total_query : string :=
  "SELECT SUM(time_in_seconds)*60*60 FROM working_log WHERE employee_id = ? LIMIT 1".

(** Adjacent string literals are concatenated by Python with nothing in
    between. *)
Definition salary_query : string :=
  String.append "SELECT X.sum, Y.hour_rate"
 (String.append "FROM (SELECT sum(time_in_seconds) as 'sum' FROM working_log "
 (String.append "WHERE employee_id = ? and time_in_seconds >= ? and time_in_seconds <= ?"
 (String.append "LIMIT 1"
                ") as X, (SELECT hour_rate as 'hour_rate' FROM employee_rates WHERE employee_id = ? LIMIT 1) as Y"))).

(** ** First version: the connection is opened by [__init__] *)

Module Eager.

(** [employee_id] is annotated [int]; Python does not check annotations, so
    the attribute holds whatever value was passed. *)
Record WorkingHourManager : Type := mkManager {
  _connection : conn_id;
  _employee_id : value
}.

Section WithConnection.
Context {Store : Type} (Connection : ConnectionClass Store).
#[local] Abbreviation M := (M Store).
#[local] Abbreviation execute := (execute Connection).

Definition __init__ (employee_id : value) : M WorkingHourManager :=
  c <- DbManager.open_connection Connection ;;
  ret (mkManager c employee_id).

Definition employee_id (self : WorkingHourManager) : value := _employee_id self.

Definition log (self : WorkingHourManager) (time : value) : M value :=
  print [VStr "Logged working hours"; time] ;;;
  _ <- execute (_connection self) log_query [employee_id self; time] ;;
  ret VNone.

Definition total (self : WorkingHourManager) : M value :=
  h <- execute (_connection self) total_query [employee_id self] ;;
  fetchone h.

Definition salary (self : WorkingHourManager) (date_from date_to : value) : M value :=
  h <- execute (_connection self) salary_query
         [employee_id self; date_from; date_to; employee_id self] ;;
  row <- fetchone h ;;
  p <- lift (unpack2 row) ;;
  lift (py_mul (fst p) (snd p)).

End WithConnection.

End Eager.

(** ** Second version: the connection is opened by the decorator *)

Module Lazy.

Record WorkingHourManager : Type := mkManager {
  connection : option conn_id;     (* [None] until a decorated method runs *)
  _employee_id : value
}.

Section WithConnection.
Context {Store : Type} (Connection : ConnectionClass Store).
#[local] Abbreviation M := (M Store).
#[local] Abbreviation execute := (execute Connection).
#[local] Abbreviation commit := (commit Connection).
#[local] Abbreviation close := (close Connection).

Definition __init__ (employee_id : value) : M WorkingHourManager :=
  ret (mkManager None employee_id).

Definition employee_id (self : WorkingHourManager) : value := _employee_id self.

(** [obj.connection.<method>]: the attribute holds [None] before the first
    decorated call, and [None] has no methods. *)
Definition the_connection (obj : WorkingHourManager) : M conn_id :=
  match connection obj with
  | Some c => ret c
  | None => raise AttributeError
  end.

(** The functions as written, before decoration. *)
Definition log_body (self : WorkingHourManager) (time : value) : M value :=
  print [VStr "Logged working hours"; time] ;;;
  c <- the_connection self ;;
  _ <- execute c log_query [employee_id self; time] ;;
  ret VNone.

Definition total_body (self : WorkingHourManager) (_ : unit) : M value :=
  c <- the_connection self ;;
  h <- execute c total_query [employee_id self] ;;
  fetchone h.

Definition salary_body (self : WorkingHourManager) (dates : value * value) : M value :=
  c <- the_connection self ;;
  h <- execute c salary_query
         [employee_id self; fst dates; snd dates; employee_id self] ;;
  row <- fetchone h ;;
  p <- lift (unpack2 row) ;;
  lift (py_mul (fst p) (snd p)).

(** [prepare_connection(func)] returns [wrapped].  [wrapped] assigns
    [obj.connection], so it hands back the object as it leaves it, whether
    it returns or raises.  When [open_connection] raises, nothing is
    assigned and [func] is not called.  There is no [try]: when [func]
    raises, the two statements after it are not run. *)
Definition prepare_connection {Args : Type}
    (func : WorkingHourManager -> Args -> M value)
    (obj : WorkingHourManager) (args : Args)
    (w : World Store) : WorkingHourManager * (World Store * outcome value) :=
  match DbManager.open_connection Connection w with
  | (w1, Raises e) => (obj, (w1, Raises e))
  | (w1, Returns c) =>
      let obj := mkManager (Some c) (_employee_id obj) in
      (obj,
       (result <- func obj args ;;
        c1 <- the_connection obj ;;
        commit c1 ;;;
        c2 <- the_connection obj ;;
        close c2 ;;;
        ret result) w1)
  end.

Definition log (self : WorkingHourManager) (time : value) :=
  prepare_connection log_body self time.

Definition total (self : WorkingHourManager) :=
  prepare_connection total_body self tt.

Definition salary (self : WorkingHourManager) (date_from date_to : value) :=
  prepare_connection salary_body self (date_from, date_to).

End WithConnection.

End Lazy.

(** ** The collaborators as the source defines them *)

(** What [typing.ContextManager], the base of [Connection] at line 1, is
    when the class statement runs.  The source binds [typing] nowhere.  With
    the standard library's module the base is the abstract context manager,
    whose [__exit__] is abstract; [Connection] does not define [__exit__], so
    the class is abstract and [Connection()] raises [TypeError].  With a base
    that has no abstract method the class can be instantiated. *)
Inductive context_manager_base : Type :=
| AbstractContextManager
| ConcreteBase.

(** [class Connection]: [execute] prints its arguments and returns [None];
    [commit] and [close] do nothing.  It keeps no state. *)
Definition Connection (base : context_manager_base) : ConnectionClass unit :=
  mkConnectionClass
    (match base with
     | AbstractContextManager => Some TypeError
     | ConcreteBase => None
     end)
    (fun query params p =>
       (mkProc (stdout p ++ [[VStr "Executed query"; VStr query; VTuple params]])
               (store p),
        Returns NoHandle))
    (fun p => p)
    (fun p => p).

(** ** A caller: a sequence of method calls on one manager *)

Inductive call : Type :=
| CallLog (time : value)
| CallTotal
| CallSalary (date_from date_to : value).

Section Callers.
Context {Store : Type} (Connection : ConnectionClass Store).

Definition eager_call (self : Eager.WorkingHourManager) (c : call) : M Store value :=
  match c with
  | CallLog time => Eager.log Connection self time
  | CallTotal => Eager.total Connection self
  | CallSalary date_from date_to => Eager.salary Connection self date_from date_to
  end.

(** The caller goes on after a call that raised. *)
Fixpoint eager_calls (self : Eager.WorkingHourManager) (cs : list call)
    (w : World Store) : World Store :=
  match cs with
  | [] => w
  | c :: cs' => eager_calls self cs' (fst (eager_call self c w))
  end.

Definition lazy_call (self : Lazy.WorkingHourManager) (c : call) (w : World Store)
    : Lazy.WorkingHourManager * (World Store * outcome value) :=
  match c with
  | CallLog time => Lazy.log Connection self time w
  | CallTotal => Lazy.total Connection self w
  | CallSalary date_from date_to => Lazy.salary Connection self date_from date_to w
  end.

Fixpoint lazy_calls (self : Lazy.WorkingHourManager) (cs : list call)
    (w : World Store) : Lazy.WorkingHourManager * World Store :=
  match cs with
  | [] => (self, w)
  | c :: cs' =>
      let r := lazy_call self c w in
      lazy_calls (fst r) cs' (fst (snd r))
  end.

End Callers.

Definition initial_world {Store : Type} (s : Store) : World Store :=
  mkWorld (mkProc [] s) 0%nat [].

(** ** The statements as a store reads them

    The source holds three SQL texts.  What they ask of a store is read off
    the texts themselves: [Sql.tokens] splits a text into tokens and
    [Sql.parse] builds the statement, for the fragment of SQL the three texts
    are written in. *)

Module Sql.

Inductive token : Type :=
| TWord (w : string)      (* a maximal run of letters, digits and underscores *)
| TQuoted (s : string)    (* text between single quotes *)
| TParam                  (* the placeholder, a question mark *)
| TLParen | TRParen | TComma | TStar | TDot
| TEq | TGe | TLe | TLt | TGt
| TOther (c : ascii).

Definition is_word_char (c : ascii) : bool :=
  let n := nat_of_ascii c in
  ((48 <=? n) && (n <=? 57) || (65 <=? n) && (n <=? 90)
   || (97 <=? n) && (n <=? 122) || (n =? 95))%nat.

Definition is_space (c : ascii) : bool :=
  let n := nat_of_ascii c in ((n =? 32) || (n =? 9) || (n =? 10) || (n =? 13))%nat.

Definition snoc (s : string) (c : ascii) : string :=
  String.append s (String c EmptyString).

Inductive lex_mode : Type :=
| Between
| InWord (acc : string)
| InQuote (acc : string)
| AfterLt
| AfterGt.

(** The tokens a mode still owes when the next character does not continue it. *)
Definition flush (m : lex_mode) : list token :=
  match m with
  | Between => []
  | InWord acc => [TWord acc]
  | InQuote acc => [TQuoted acc]
  | AfterLt => [TLt]
  | AfterGt => [TGt]
  end.

Definition symbol (c : ascii) : token :=
  if Ascii.eqb c "("%char then TLParen
  else if Ascii.eqb c ")"%char then TRParen
  else if Ascii.eqb c ","%char then TComma
  else if Ascii.eqb c "*"%char then TStar
  else if Ascii.eqb c "."%char then TDot
  else if Ascii.eqb c "="%char then TEq
  else if Ascii.eqb c "?"%char then TParam
  else TOther c.

Fixpoint lex (m : lex_mode) (s : string) : list token :=
  match s with
  | EmptyString => flush m
  | String c rest =>
      match m with
      | InQuote acc =>
          if Ascii.eqb c "'"%char then TQuoted acc :: lex Between rest
          else lex (InQuote (snoc acc c)) rest
      | _ =>
          if is_word_char c then
            match m with
            | InWord acc => lex (InWord (snoc acc c)) rest
            | _ => flush m ++ lex (InWord (String c EmptyString)) rest
            end
          else if Ascii.eqb c "="%char then
            match m with
            | AfterLt => TLe :: lex Between rest
            | AfterGt => TGe :: lex Between rest
            | _ => flush m ++ TEq :: lex Between rest
            end
          else if is_space c then flush m ++ lex Between rest
          else if Ascii.eqb c "'"%char then flush m ++ lex (InQuote EmptyString) rest
          else if Ascii.eqb c "<"%char then flush m ++ lex AfterLt rest
          else if Ascii.eqb c ">"%char then flush m ++ lex AfterGt rest
          else flush m ++ symbol c :: lex Between rest
      end
  end.

Definition tokens (text : string) : list token := lex Between text.

(** Keywords and unquoted names are compared without regard to case. *)
Definition lower_char (c : ascii) : ascii :=
  let n := nat_of_ascii c in
  if ((65 <=? n) && (n <=? 90))%nat then ascii_of_nat (n + 32) else c.

Fixpoint lower (s : string) : string :=
  match s with
  | EmptyString => EmptyString
  | String c rest => String (lower_char c) (lower rest)
  end.

Definition same_name (a b : string) : bool := String.eqb (lower a) (lower b).

Definition reserved (w : string) : bool :=
  existsb (same_name w)
    ["select"; "from"; "where"; "and"; "limit"; "as"; "insert"; "into"; "values"].

Definition digit_of (c : ascii) : option Z :=
  let n := nat_of_ascii c in
  if ((48 <=? n) && (n <=? 57))%nat then Some (Z.of_nat (n - 48)) else None.

Fixpoint number_from (acc : Z) (s : string) : option Z :=
  match s with
  | EmptyString => Some acc
  | String c rest =>
      match digit_of c with
      | Some d => number_from (10 * acc + d) rest
      | None => None
      end
  end.

Definition number_of (w : string) : option Z :=
  match w with
  | EmptyString => None
  | _ => number_from 0 w
  end.

(** *** Statements *)

Inductive expr : Type :=
| Col (qualifier : option string) (name : string)
| Sum (column : string)                 (* the aggregate sum(column) *)
| Times (e : expr) (n : Z).

Inductive cmp : Type := Eq | Ge | Le.

(** [column cmp ?], with the placeholder's position among the statement's
    placeholders, counted from 0 in text order. *)
Record cond : Type := mkCond {
  cond_column : string;
  cond_cmp : cmp;
  cond_param : nat
}.

Inductive source : Type :=
| FromTable (table : string)
| FromSelect (q : select) (alias : string)
with select : Type :=
| Select (items : list (expr * option string)) (from : list source)
         (where_ : list cond) (limit : option Z).

Inductive statement : Type :=
| Insert (table : string) (columns : list string) (values : list nat)
| Query (q : select).

(** *** Parser

    Every parsing function takes the tokens and the number of placeholders
    read so far, and gives back what it read with the tokens left and the new
    count.  [fuel] bounds the nesting and the length of the lists. *)

Definition parsed (A : Type) : Type := option (A * (list token * nat)).

(** expr ::= term { * number } ;  term ::= sum ( name ) | name . name | name *)
Fixpoint parse_factors (e : expr) (toks : list token) : expr * list token :=
  match toks with
  | TStar :: TWord w :: rest =>
      match number_of w with
      | Some n => parse_factors (Times e n) rest
      | None => (e, toks)
      end
  | _ => (e, toks)
  end.

Definition parse_expr (toks : list token) : option (expr * list token) :=
  match toks with
  | TWord f :: TLParen :: TWord c :: TRParen :: rest =>
      if same_name f "sum" && negb (reserved c)
      then Some (parse_factors (Sum c) rest) else None
  | TWord q :: TDot :: TWord c :: rest =>
      if reserved q || reserved c then None
      else Some (parse_factors (Col (Some q) c) rest)
  | TWord c :: rest =>
      if reserved c then None else Some (parse_factors (Col None c) rest)
  | _ => None
  end.

(** item ::= expr [ as alias ] ; the alias is a name or a quoted name *)
Definition parse_item (toks : list token) : option ((expr * option string) * list token) :=
  match parse_expr toks with
  | None => None
  | Some (e, rest) =>
      match rest with
      | TWord kw :: TWord a :: rest' =>
          if same_name kw "as"
          then (if reserved a then None else Some ((e, Some a), rest'))
          else Some ((e, None), rest)
      | TWord kw :: TQuoted a :: rest' =>
          if same_name kw "as" then Some ((e, Some a), rest')
          else Some ((e, None), rest)
      | _ => Some ((e, None), rest)
      end
  end.

Fixpoint parse_items (fuel : nat) (toks : list token)
    : option (list (expr * option string) * list token) :=
  match fuel with
  | O => None
  | S fuel' =>
      match parse_item toks with
      | None => None
      | Some (it, TComma :: rest) =>
          match parse_items fuel' rest with
          | Some (its, rest') => Some (it :: its, rest')
          | None => None
          end
      | Some (it, rest) => Some ([it], rest)
      end
  end.

(** cond ::= name ( = | >= | <= ) ? *)
Definition parse_cond (toks : list token) (np : nat) : parsed cond :=
  match toks with
  | TWord c :: TEq :: TParam :: rest =>
      if reserved c then None else Some (mkCond c Eq np, (rest, S np))
  | TWord c :: TGe :: TParam :: rest =>
      if reserved c then None else Some (mkCond c Ge np, (rest, S np))
  | TWord c :: TLe :: TParam :: rest =>
      if reserved c then None else Some (mkCond c Le np, (rest, S np))
  | _ => None
  end.

Fixpoint parse_conds (fuel : nat) (toks : list token) (np : nat) : parsed (list cond) :=
  match fuel with
  | O => None
  | S fuel' =>
      match parse_cond toks np with
      | None => None
      | Some (c, (TWord kw :: rest, np')) =>
          if same_name kw "and" then
            match parse_conds fuel' rest np' with
            | Some (cs, k) => Some (c :: cs, k)
            | None => None
            end
          else Some ([c], (TWord kw :: rest, np'))
      | Some (c, k) => Some ([c], k)
      end
  end.

(** [ where cond { and cond } ] *)
Definition parse_where (fuel : nat) (toks : list token) (np : nat) : parsed (list cond) :=
  match toks with
  | TWord kw :: rest =>
      if same_name kw "where" then parse_conds fuel rest np
      else Some ([], (toks, np))
  | _ => Some ([], (toks, np))
  end.

(** [ limit number ] *)
Definition parse_limit (toks : list token) : option (option Z * list token) :=
  match toks with
  | TWord kw :: TWord n :: rest =>
      if same_name kw "limit" then
        match number_of n with
        | Some k => Some (Some k, rest)
        | None => None
        end
      else Some (None, toks)
  | TWord kw :: _ =>
      if same_name kw "limit" then None else Some (None, toks)
  | _ => Some (None, toks)
  end.

(** select  ::= select item { , item } from source { , source } [where] [limit]
    source  ::= name | ( select ) as name *)
Fixpoint parse_select (fuel : nat) (toks : list token) (np : nat) : parsed select :=
  match fuel with
  | O => None
  | S fuel' =>
      match toks with
      | TWord kw :: rest =>
          if same_name kw "select" then
            match parse_items fuel' rest with
            | Some (items, TWord kw' :: rest1) =>
                if same_name kw' "from" then
                  match parse_sources fuel' rest1 np with
                  | Some (from, (rest2, np2)) =>
                      match parse_where fuel' rest2 np2 with
                      | Some (conds, (rest3, np3)) =>
                          match parse_limit rest3 with
                          | Some (lim, rest4) =>
                              Some (Select items from conds lim, (rest4, np3))
                          | None => None
                          end
                      | None => None
                      end
                  | None => None
                  end
                else None
            | _ => None
            end
          else None
      | _ => None
      end
  end
with parse_sources (fuel : nat) (toks : list token) (np : nat) : parsed (list source) :=
  match fuel with
  | O => None
  | S fuel' =>
      match parse_source fuel' toks np with
      | None => None
      | Some (s, (TComma :: rest, np')) =>
          match parse_sources fuel' rest np' with
          | Some (ss, k) => Some (s :: ss, k)
          | None => None
          end
      | Some (s, k) => Some ([s], k)
      end
  end
with parse_source (fuel : nat) (toks : list token) (np : nat) : parsed source :=
  match fuel with
  | O => None
  | S fuel' =>
      match toks with
      | TLParen :: rest =>
          match parse_select fuel' rest np with
          | Some (q, (TRParen :: TWord kw :: TWord a :: rest', np')) =>
              if same_name kw "as" && negb (reserved a)
              then Some (FromSelect q a, (rest', np')) else None
          | _ => None
          end
      | TWord t :: rest =>
          if reserved t then None else Some (FromTable t, (rest, np))
      | _ => None
      end
  end.

(** insert into table ( name { , name } ) values ( ? { , ? } ) *)
Fixpoint parse_names (toks : list token) : option (list string * list token) :=
  match toks with
  | TWord c :: TComma :: rest =>
      if reserved c then None else
      match parse_names rest with
      | Some (cs, rest') => Some (c :: cs, rest')
      | None => None
      end
  | TWord c :: TRParen :: rest =>
      if reserved c then None else Some ([c], rest)
  | _ => None
  end.

Fixpoint parse_params (toks : list token) (np : nat) : parsed (list nat) :=
  match toks with
  | TParam :: TComma :: rest =>
      match parse_params rest (S np) with
      | Some (ps, k) => Some (np :: ps, k)
      | None => None
      end
  | TParam :: TRParen :: rest => Some ([np], (rest, S np))
  | _ => None
  end.

Definition parse_insert (toks : list token) : option statement :=
  match toks with
  | TWord k1 :: TWord k2 :: TWord t :: TLParen :: rest =>
      if same_name k1 "insert" && same_name k2 "into" && negb (reserved t) then
        match parse_names rest with
        | Some (cols, TWord k3 :: TLParen :: rest') =>
            if same_name k3 "values" then
              match parse_params rest' 0%nat with
              | Some (vals, ([], _)) => Some (Insert t cols vals)
              | _ => None
              end
            else None
        | _ => None
        end
      else None
  | _ => None
  end.

(** A text is a statement when all of it is read. *)
Definition parse (text : string) : option statement :=
  let toks := tokens text in
  match toks with
  | TWord kw :: _ =>
      if same_name kw "insert" then parse_insert toks
      else match parse_select (S (List.length toks)) toks 0%nat with
           | Some (q, ([], _)) => Some (Query q)
           | _ => None
           end
  | _ => None
  end.

(** *** A store that runs the statements

    Tables hold rows of SQL values under named columns, and the statements
    mean what SQL makes them mean: [sum] skips nulls and is null over no
    value; a comparison with a null is not true; an aggregate select without
    grouping yields exactly one row; an [insert] leaves the columns it does
    not name null, and is refused when it names a column the table lacks.
    Transactions are not modelled: the tables are those the connection that
    writes sees, and [commit] changes nothing; what another connection sees of
    a write that was never committed is outside the model.  Integers in the
    tables are unbounded; a store of 64-bit integers agrees with this one as
    long as the values held, their sums and their products fit 64 bits
    (beyond, such a store raises or answers with a float, and floats are not
    modelled). *)

Inductive sqlval : Type :=
| Null
| IntV (z : Z)
| TextV (s : string).

Record table : Type := mkTable {
  columns : list string;
  rows : list (list sqlval)      (* each row as long as [columns] *)
}.

(** Tables by lower-case name. *)
Abbreviation database := (gmap string table).

(** The rows a [from] clause or a [select] yields, under qualified names. *)
Record relation : Type := mkRelation {
  rel_columns : list (option string * string);
  rel_rows : list (list sqlval)
}.

Definition column_matches (q : option string) (name : string)
    (c : option string * string) : bool :=
  same_name name (snd c) &&
  match q, fst c with
  | None, _ => true
  | Some a, Some b => same_name a b
  | Some _, None => false
  end.

Fixpoint positions_from {A} (f : A -> bool) (i : nat) (l : list A) : list nat :=
  match l with
  | [] => []
  | x :: l' => (if f x then [i] else []) ++ positions_from f (S i) l'
  end.

(** A column reference must denote exactly one column. *)
Definition column_index (cols : list (option string * string))
    (q : option string) (name : string) : option nat :=
  match positions_from (column_matches q name) 0%nat cols with
  | [i] => Some i
  | _ => None
  end.

Definition times (v : sqlval) (n : Z) : option sqlval :=
  match v with
  | Null => Some Null
  | IntV z => Some (IntV (z * n))
  | TextV _ => None
  end.

(** [sum] skips nulls and is null when nothing is left to add. *)
Fixpoint sum_values (acc : sqlval) (vs : list sqlval) : option sqlval :=
  match vs with
  | [] => Some acc
  | Null :: vs' => sum_values acc vs'
  | IntV z :: vs' =>
      sum_values (match acc with IntV a => IntV (a + z) | _ => IntV z end) vs'
  | TextV _ :: _ => None
  end.

Fixpoint has_aggregate (e : expr) : bool :=
  match e with
  | Col _ _ => false
  | Sum _ => true
  | Times e' _ => has_aggregate e'
  end.

(** Column names are resolved before any row is read. *)
Fixpoint scalar_ok (cols : list (option string * string)) (e : expr) : bool :=
  match e with
  | Col q name =>
      match column_index cols q name with Some _ => true | None => false end
  | Sum _ => false
  | Times e' _ => scalar_ok cols e'
  end.

Fixpoint eval_scalar (cols : list (option string * string)) (row : list sqlval)
    (e : expr) : option sqlval :=
  match e with
  | Col q name =>
      match column_index cols q name with
      | Some i => Some (nth i row Null)
      | None => None
      end
  | Sum _ => None
  | Times e' n =>
      match eval_scalar cols row e' with
      | Some v => times v n
      | None => None
      end
  end.

Fixpoint eval_aggregate (r : relation) (e : expr) : option sqlval :=
  match e with
  | Col _ _ => None
  | Sum c =>
      match column_index (rel_columns r) None c with
      | Some i => sum_values Null (List.map (fun row => nth i row Null) (rel_rows r))
      | None => None
      end
  | Times e' n =>
      match eval_aggregate r e' with
      | Some v => times v n
      | None => None
      end
  end.

Fixpoint all_some {A} (l : list (option A)) : option (list A) :=
  match l with
  | [] => Some []
  | Some x :: l' =>
      match all_some l' with
      | Some xs => Some (x :: xs)
      | None => None
      end
  | None :: _ => None
  end.

(** Comparison is true, or it is not (false or unknown).  A null compares
    with nothing; integers compare by value, texts by character codes, and
    an integer sorts before a text. *)
Definition holds (c : cmp) (a b : sqlval) : bool :=
  match a, b with
  | IntV x, IntV y =>
      match c with Eq => (x =? y)%Z | Ge => (y <=? x)%Z | Le => (x <=? y)%Z end
  | TextV x, TextV y =>
      match c with Eq => String.eqb x y | Ge => String.leb y x | Le => String.leb x y end
  | IntV _, TextV _ => match c with Le => true | _ => false end
  | TextV _, IntV _ => match c with Ge => true | _ => false end
  | _, _ => false
  end.

(** A condition with its column and its argument looked up. *)
Definition resolve_cond (cols : list (option string * string)) (params : list sqlval)
    (c : cond) : option (nat * cmp * sqlval) :=
  match column_index cols None (cond_column c), nth_error params (cond_param c) with
  | Some i, Some p => Some (i, cond_cmp c, p)
  | _, _ => None
  end.

Definition satisfies (conds : list (nat * cmp * sqlval)) (row : list sqlval) : bool :=
  forallb (fun c => match c with (i, op, p) => holds op (nth i row Null) p end) conds.

Definition cross (a b : relation) : relation :=
  mkRelation (rel_columns a ++ rel_columns b)
    (List.flat_map (fun ra => List.map (fun rb => ra ++ rb) (rel_rows b)) (rel_rows a)).

Definition item_name (it : expr * option string) : string :=
  match it with
  | (_, Some a) => a
  | (Col _ name, None) => name
  | (_, None) => EmptyString
  end.

Definition limit_rows (lim : option Z) (rs : list (list sqlval)) : list (list sqlval) :=
  match lim with
  | Some n => firstn (Z.to_nat n) rs
  | None => rs
  end.

(** from, then where, then the select list (one row when it aggregates),
    then limit. *)
Definition project (items : list (expr * option string)) (conds : list cond)
    (lim : option Z) (params : list sqlval) (joined : relation) : option relation :=
  match all_some (List.map (resolve_cond (rel_columns joined) params) conds) with
  | None => None
  | Some rconds =>
      let kept := List.filter (satisfies rconds) (rel_rows joined) in
      let r := mkRelation (rel_columns joined) kept in
      let names := List.map (fun it => (@None string, item_name it)) items in
      if existsb (fun it => has_aggregate (fst it)) items then
        match all_some (List.map (fun it => eval_aggregate r (fst it)) items) with
        | Some row => Some (mkRelation names (limit_rows lim [row]))
        | None => None
        end
      else if forallb (fun it => scalar_ok (rel_columns r) (fst it)) items then
        match all_some (List.map (fun row =>
                 all_some (List.map (fun it => eval_scalar (rel_columns r) row (fst it)) items))
               kept) with
        | Some rs => Some (mkRelation names (limit_rows lim rs))
        | None => None
        end
      else None
  end.

Definition scan (db : database) (t : string) : option relation :=
  match db !! lower t with
  | Some tb => Some (mkRelation (List.map (fun c => (Some t, c)) (columns tb)) (rows tb))
  | None => None
  end.

Definition rename (alias : string) (r : relation) : relation :=
  mkRelation (List.map (fun c => (Some alias, snd c)) (rel_columns r)) (rel_rows r).

Fixpoint eval_select (db : database) (params : list sqlval) (q : select) : option relation :=
  match q with
  | Select items from conds lim =>
      let fix join (ss : list source) : option relation :=
        match ss with
        | [] => Some (mkRelation [] [[]])
        | s :: ss' =>
            match eval_source db params s, join ss' with
            | Some a, Some b => Some (cross a b)
            | _, _ => None
            end
        end in
      match join from with
      | Some joined => project items conds lim params joined
      | None => None
      end
  end
with eval_source (db : database) (params : list sqlval) (s : source) : option relation :=
  match s with
  | FromTable t => scan db t
  | FromSelect q alias =>
      match eval_select db params q with
      | Some r => Some (rename alias r)
      | None => None
      end
  end.

(** [insert]: every named column must exist; the others are left null. *)
Definition new_row (tb : table) (cols : list string) (vals : list nat)
    (params : list sqlval) : option (list sqlval) :=
  if forallb (fun c => existsb (same_name c) (columns tb)) cols
     && (List.length cols =? List.length vals)%nat
  then all_some (List.map (fun tc =>
         match positions_from (same_name tc) 0%nat cols with
         | [] => Some Null
         | i :: _ =>
             match nth_error vals i with
             | Some k => nth_error params k
             | None => None
             end
         end) (columns tb))
  else None.

Definition run_insert (db : database) (t : string) (cols : list string)
    (vals : list nat) (params : list sqlval) : option database :=
  match db !! lower t with
  | Some tb =>
      match new_row tb cols vals params with
      | Some row => Some (<[lower t := mkTable (columns tb) (rows tb ++ [row])]> db)
      | None => None
      end
  | None => None
  end.

(** *** The connection over that store *)

(** An [int] is bound as a 64-bit integer. *)
Definition fits_int64 (z : Z) : bool := (- 2 ^ 63 <=? z)%Z && (z <? 2 ^ 63)%Z.

(** How a Python argument is bound to a placeholder; a tuple cannot be, nor
    an [int] beyond 64 bits. *)
Definition bind_param (v : value) : option sqlval :=
  match v with
  | VNone => Some Null
  | VInt z => if fits_int64 z then Some (IntV z) else None
  | VStr s => Some (TextV s)
  | VTuple _ => None
  end.

(** The arguments are bound in order, and the first that cannot be bound
    ends the call: with [OverflowError] when it is an [int], with the
    driver's own exception otherwise. *)
Fixpoint bind_params (params : list value) : outcome (list sqlval) :=
  match params with
  | [] => Returns []
  | v :: rest =>
      match bind_param v with
      | None => Raises (match v with VInt _ => OverflowError | _ => QueryError end)
      | Some x =>
          match bind_params rest with
          | Returns xs => Returns (x :: xs)
          | Raises ex => Raises ex
          end
      end
  end.

(** The tables without their rows: what a statement is checked against
    before any argument is bound. *)
Definition schema (db : database) : database :=
  (fun tb => mkTable (columns tb) []) <$> db.

(** A statement is prepared when its tables and columns exist: an [insert]
    names a table and columns of it, one value for each; a [select] can be
    answered on the tables emptied of their rows, whatever its [n]
    arguments. *)
Definition prepared (db : database) (n : nat) (st : statement) : bool :=
  match st with
  | Insert t cols vals =>
      match db !! lower t with
      | Some tb =>
          forallb (fun c => existsb (same_name c) (columns tb)) cols
          && (List.length cols =? List.length vals)%nat
      | None => false
      end
  | Query q =>
      match eval_select (schema db) (repeat Null n) q with
      | Some _ => true
      | None => false
      end
  end.

Definition to_python (v : sqlval) : value :=
  match v with
  | Null => VNone
  | IntV z => VInt z
  | TextV s => VStr s
  end.

Definition placeholders (text : string) : nat :=
  List.length (List.filter (fun t => match t with TParam => true | _ => false end)
                           (tokens text)).

(** [execute], in the order of a driver: the text must be a statement and
    its tables and columns must exist; there must be as many arguments as
    placeholders; the arguments are bound; the statement is run.  Whatever
    fails raises, and then nothing is written.  [row_factory] is the shape in
    which the driver presents a fetched row. *)
Definition sql_execute (row_factory : list value -> value)
    (query : string) (params : list value) (p : Proc database)
    : Proc database * outcome handle :=
  match parse query with
  | None => (p, Raises QueryError)
  | Some st =>
      if prepared (store p) (placeholders query) st
         && (List.length params =? placeholders query)%nat
      then
        match bind_params params with
        | Raises ex => (p, Raises ex)
        | Returns ps =>
            match st with
            | Insert t cols vals =>
                match run_insert (store p) t cols vals ps with
                | Some db' => (mkProc (stdout p) db', Returns (Cursor []))
                | None => (p, Raises QueryError)
                end
            | Query q =>
                match eval_select (store p) ps q with
                | Some r =>
                    (p, Returns (Cursor (List.map
                                           (fun row => row_factory (List.map to_python row))
                                           (rel_rows r))))
                | None => (p, Raises QueryError)
                end
            end
        end
      else (p, Raises QueryError)
  end.

Definition SqlConnection (row_factory : list value -> value) : ConnectionClass database :=
  mkConnectionClass None (sql_execute row_factory) (fun p => p) (fun p => p).

(** A fetched row as a tuple of its columns (the Python DB-API shape). *)
Definition tuple_row (row : list value) : value := VTuple row.

(** A fetched row of one column as that column's value, as the comment at
    the head of the source expects of [fetchone]. *)
Definition scalar_row (row : list value) : value :=
  match row with
  | [v] => v
  | _ => VTuple row
  end.

(** *** Which arguments a text ties to a column

    The positions, among a text's placeholders, of those the text ties to
    column [col]: in an [insert], the values at the places [col] has in the
    column list; in any other text, the placeholders of the comparisons
    [col = ?]. *)

Fixpoint compared_params (col : string) (toks : list token) (np : nat) : list nat :=
  match toks with
  | [] => []
  | TWord c :: TEq :: TParam :: rest =>
      (if same_name c col then [np] else []) ++ compared_params col rest (S np)
  | TParam :: rest => compared_params col rest (S np)
  | _ :: rest => compared_params col rest np
  end.

(** *** Which tables a text reads, and how it filters them

    The tokens up to the parenthesis that closes the select they are in, or
    to the end of the text. *)
Fixpoint block (toks : list token) : list token :=
  match toks with
  | [] => []
  | TRParen :: _ => []
  | t :: rest => t :: block rest
  end.

(** Every [from <table>] of a text, with the placeholders that the select
    reading the table compares with column [col]. *)
Fixpoint table_scans (col : string) (toks : list token) (np : nat)
    : list (string * list nat) :=
  match toks with
  | [] => []
  | TParam :: rest => table_scans col rest (S np)
  | TWord f :: rest =>
      match rest with
      | TWord t :: after =>
          if same_name f "from" then [(t, compared_params col (block after) np)] else []
      | _ => []
      end ++ table_scans col rest np
  | _ :: rest => table_scans col rest np
  end.

Definition params_of_column (col : string) (text : string) : list nat :=
  match parse text with
  | Some (Insert _ cols vals) =>
      List.flat_map (fun i => match nth_error vals i with Some k => [k] | None => [] end)
                    (positions_from (same_name col) 0%nat cols)
  | _ => compared_params col (tokens text) 0%nat
  end.

End Sql.

(** A connection that answers every [execute] with the same handle, as a
    test double would. *)
Definition Replying (h : handle) : ConnectionClass unit :=
  mkConnectionClass None (fun _ _ p => (p, Returns h)) (fun p => p) (fun p => p).

(** ** The module body

    The statements of [kz.py] at module level, in order: four [class]
    statements and one string expression.  A [class] statement evaluates its
    bases and its body, which look up global names ([typing] for the bases of
    [Connection], [DbManager] for the [_db_manager] attribute of both
    managers; builtins are always there), then binds its name to the new
    class.  The body of the second [WorkingHourManager] applies the
    [staticmethod] object [prepare_connection] as a decorator, which Python
    accepts from version 3.10 on; the statement is taken to succeed. *)

Module PyModule.

Inductive class_obj : Type :=
| ConnectionClassObj                 (* line 1 *)
| DbManagerClassObj                  (* line 11 *)
| FirstWorkingHourManager            (* line 53 *)
| SecondWorkingHourManager.          (* line 104 *)

Inductive binding : Type :=
| Other                              (* whatever was bound before the body ran *)
| Class (c : class_obj).

Inductive stmt : Type :=
| ClassDef (name : string) (needs : list string) (c : class_obj)
| StringExpr.

Definition kz : list stmt :=
  [ ClassDef "Connection" ["typing"] ConnectionClassObj;
    ClassDef "DbManager" [] DbManagerClassObj;
    StringExpr;
    ClassDef "WorkingHourManager" ["DbManager"] FirstWorkingHourManager;
    ClassDef "WorkingHourManager" ["DbManager"] SecondWorkingHourManager ].

Definition bound (g : gmap string binding) (name : string) : bool :=
  match g !! name with Some _ => true | None => false end.

Definition exec_stmt (g : gmap string binding) (s : stmt) : outcome (gmap string binding) :=
  match s with
  | StringExpr => Returns g
  | ClassDef name needs c =>
      if forallb (bound g) needs then Returns (<[name := Class c]> g)
      else Raises NameError
  end.

Fixpoint exec (g : gmap string binding) (body : list stmt) : outcome (gmap string binding) :=
  match body with
  | [] => Returns g
  | s :: body' =>
      match exec_stmt g s with
      | Returns g' => exec g' body'
      | Raises e => Raises e
      end
  end.

Inductive instance : Type :=
| FirstInstance (m : Eager.WorkingHourManager)
| SecondInstance (m : Lazy.WorkingHourManager).

(** [name(employee_id)] evaluated in the module's globals.  [Connection]
    and [DbManager] take no argument; what was bound beforehand is taken not
    to be callable. *)
Definition construct {Store : Type} (Connection : ConnectionClass Store)
    (g : gmap string binding) (name : string)
    (employee_id : value) : M Store instance :=
  match g !! name with
  | Some (Class FirstWorkingHourManager) =>
      m <- Eager.__init__ Connection employee_id ;; ret (FirstInstance m)
  | Some (Class SecondWorkingHourManager) =>
      m <- Lazy.__init__ employee_id ;; ret (SecondInstance m)
  | Some _ => raise TypeError
  | None => raise NameError
  end.

End PyModule.

(** ** Reading the record of calls *)

Definition is_execute (ev : event) : bool :=
  match ev with EvExecute _ _ _ => true | _ => false end.

Definition count_executes (evs : list event) : nat :=
  List.length (List.filter is_execute evs).

Definition count_closes (c : conn_id) (evs : list event) : nat :=
  List.length (List.filter (fun ev => match ev with EvClose c' => Nat.eqb c c' | _ => false end) evs).

Definition count_commits (c : conn_id) (evs : list event) : nat :=
  List.length (List.filter (fun ev => match ev with EvCommit c' => Nat.eqb c c' | _ => false end) evs).

(** The connections opened, in order. *)
Definition opened (evs : list event) : list conn_id :=
  List.flat_map (fun ev => match ev with EvOpen c => [c] | _ => [] end) evs.

(** An [execute] binds [e] to every placeholder its text ties to column
    [employee_id], and there is such a placeholder. *)
Definition binds_employee (e : value) (ev : event) : Prop :=
  match ev with
  | EvExecute _ query params =>
      Sql.params_of_column "employee_id" query <> [] /\
      Forall (fun i => nth_error params i = Some e)
             (Sql.params_of_column "employee_id" query)
  | _ => True
  end.

(** The calls recorded between two worlds. *)
Definition new_calls {Store : Type} (w w' : World Store) : list event :=
  skipn (List.length (calls w)) (calls w').

(** The statement and the arguments a method call sends. *)
Definition call_query (c : call) : string :=
  match c with
  | CallLog _ => log_query
  | CallTotal => total_query
  | CallSalary _ _ => salary_query
  end.

Definition call_params (e : value) (c : call) : list value :=
  match c with
  | CallLog time => [e; time]
  | CallTotal => [e]
  | CallSalary date_from date_to => [e; date_from; date_to; e]
  end.

(** What a decorated method adds after its [execute]: the release, only
    when the wrapped function returned. *)
Definition release_calls (n : conn_id) (r : outcome value) : list event :=
  match r with
  | Returns _ => [EvCommit n; EvClose n]
  | Raises _ => []
  end.

(** ** Stores to run the managers on *)

(** Modelled from the spec: the tables of the store, which the source only
    names inside its statements.  The spec gives the store two tables,
    [working_log(employee_id, time_in_seconds)] and
    [employee_rates(employee_id, hour_rate)]. *)
Definition spec_store (logs rates : list (list Sql.sqlval)) : Sql.database :=
  {[ "working_log" := Sql.mkTable ["employee_id"; "time_in_seconds"] logs;
     "employee_rates" := Sql.mkTable ["employee_id"; "hour_rate"] rates ]}.

(** A store whose [working_log] also has the column [time] that the
    [insert] of [log] names, so that the [insert] is accepted. *)
Definition wide_store (logs rates : list (list Sql.sqlval)) : Sql.database :=
  {[ "working_log" := Sql.mkTable ["employee_id"; "time"; "time_in_seconds"] logs;
     "employee_rates" := Sql.mkTable ["employee_id"; "hour_rate"] rates ]}.

(** The statements [Sql.parse] reads in the texts of [log] and [total]. *)
Definition log_statement : Sql.statement :=
  Sql.Insert "working_log" ["employee_id"; "time"] [0%nat; 1%nat].

Definition total_select : Sql.select :=
  Sql.Select [(Sql.Times (Sql.Times (Sql.Sum "time_in_seconds") 60) 60, None)]
             [Sql.FromTable "working_log"]
             [Sql.mkCond "employee_id" Sql.Eq 0%nat]
             (Some 1).

(** The text of [salary] with one blank put between [hour_rate] and [FROM],
    and the statement it then is: a cross join of two selects of one row. *)
Definition salary_query_spaced : string :=
  String.append "SELECT X.sum, Y.hour_rate "
 (String.append "FROM (SELECT sum(time_in_seconds) as 'sum' FROM working_log "
 (String.append "WHERE employee_id = ? and time_in_seconds >= ? and time_in_seconds <= ?"
 (String.append "LIMIT 1"
                ") as X, (SELECT hour_rate as 'hour_rate' FROM employee_rates WHERE employee_id = ? LIMIT 1) as Y"))).

Definition salary_select_spaced : Sql.select :=
  Sql.Select
    [(Sql.Col (Some "X") "sum", None); (Sql.Col (Some "Y") "hour_rate", None)]
    [Sql.FromSelect
       (Sql.Select [(Sql.Sum "time_in_seconds", Some "sum")]
                   [Sql.FromTable "working_log"]
                   [Sql.mkCond "employee_id" Sql.Eq 0%nat;
                    Sql.mkCond "time_in_seconds" Sql.Ge 1%nat;
                    Sql.mkCond "time_in_seconds" Sql.Le 2%nat]
                   (Some 1))
       "X";
     Sql.FromSelect
       (Sql.Select [(Sql.Col None "hour_rate", Some "hour_rate")]
                   [Sql.FromTable "employee_rates"]
                   [Sql.mkCond "employee_id" Sql.Eq 3%nat]
                   (Some 1))
       "Y"]
    [] None.

(** The scenario [m = WorkingHourManager(e); m.log(d); m.total()], with the
    outcome of each of the two calls. *)
Definition log_then_total_eager {Store : Type} (C : ConnectionClass Store)
    (e d : value) (w : World Store) : outcome value * outcome value :=
  match Eager.__init__ C e w with
  | (w1, Returns m) =>
      let r := Eager.log C m d w1 in
      (snd r, snd (Eager.total C m (fst r)))
  | (_, Raises ex) => (Raises ex, Raises ex)
  end.

Definition log_then_total_lazy {Store : Type} (C : ConnectionClass Store)
    (e d : value) (w : World Store) : outcome value * outcome value :=
  match Lazy.__init__ e w with
  | (w1, Returns m) =>
      let r := Lazy.log C m d w1 in
      (snd (snd r), snd (snd (Lazy.total C (fst r) (fst (snd r)))))
  | (_, Raises ex) => (Raises ex, Raises ex)
  end.

(** The outcome of [total] and of [salary] as a function of what [execute]
    answered: [total] hands back what [fetchone] gives, as it is; [salary]
    unpacks the fetched row and multiplies its two items. *)
Definition total_outcome (r : outcome handle) : outcome value :=
  match r with
  | Raises ex => Raises ex
  | Returns NoHandle => Raises AttributeError
  | Returns (Cursor rows) => Returns (hd VNone rows)
  end.

Definition salary_outcome (r : outcome handle) : outcome value :=
  match r with
  | Raises ex => Raises ex
  | Returns NoHandle => Raises AttributeError
  | Returns (Cursor rows) =>
      match unpack2 (hd VNone rows) with
      | Returns p => py_mul (fst p) (snd p)
      | Raises ex => Raises ex
      end
  end.

(** ** More callers and readings *)

(** [WorkingHourManager(e)] of the first version for each [e] of a list, in
    order: the managers built and the world they leave. *)
Fixpoint eager_inits {Store : Type} (C : ConnectionClass Store)
    (es : list value) (w : World Store)
    : list Eager.WorkingHourManager * World Store :=
  match es with
  | [] => ([], w)
  | e :: es' =>
      match Eager.__init__ C e w with
      | (w1, Returns m) =>
          let r := eager_inits C es' w1 in (m :: fst r, snd r)
      | (w1, Raises _) => ([], w1)
      end
  end.

(** An [execute] sends one of the three texts of the source, with as many
    arguments as the text has placeholders. *)
Definition well_formed_execute (ev : event) : Prop :=
  match ev with
  | EvExecute _ query params =>
      In query [log_query; total_query; salary_query] /\
      List.length params = Sql.placeholders query
  | _ => True
  end.

(** Rows of [working_log] that hold an integer employee and integer seconds. *)
Definition int_rows (logs : list (Z * Z)) : list (list Sql.sqlval) :=
  List.map (fun r => [Sql.IntV (fst r); Sql.IntV (snd r)]) logs.

(** The seconds logged for employee [e], and the sum of a list of seconds. *)
Definition seconds_of (e : Z) (logs : list (Z * Z)) : list Z :=
  List.map snd (List.filter (fun r => (fst r =? e)%Z) logs).

Definition sum_seconds (zs : list Z) : Z := fold_right Z.add 0 zs.

(** The connections closed, in order. *)
Definition closed (evs : list event) : list conn_id :=
  List.flat_map (fun ev => match ev with EvClose c => [c] | _ => [] end) evs.

(** For a sequence of calls on a manager of the second version: the
    connection each call opened, with the outcome of the call. *)
Fixpoint lazy_results {Store : Type} (C : ConnectionClass Store)
    (self : Lazy.WorkingHourManager) (cs : list call) (w : World Store)
    : list (conn_id * outcome value) :=
  match cs with
  | [] => []
  | c :: cs' =>
      let r := lazy_call C self c w in
      (next_conn w, snd (snd r)) :: lazy_results C (fst r) cs' (fst (snd r))
  end.

Definition returned {A : Type} (r : outcome A) : bool :=
  match r with Returns _ => true | Raises _ => false end.

(** ** The decorator, case by case *)

(** What a decorated method hands back when the function it wraps gives [r]:
    the exception of [Connection()] when the class cannot be instantiated,
    and [r] otherwise. *)
Definition decorated {Store A : Type} (C : ConnectionClass Store) (r : outcome A)
    : outcome A :=
  match conn_new C with
  | Some ex => Raises ex
  | None => r
  end.

(** The function that a call of the second version wraps, applied to the
    arguments of the call. *)
Definition lazy_body {Store : Type} (C : ConnectionClass Store)
    (obj : Lazy.WorkingHourManager) (c : call) : M Store value :=
  match c with
  | CallLog time => Lazy.log_body C obj time
  | CallTotal => Lazy.total_body C obj tt
  | CallSalary date_from date_to => Lazy.salary_body C obj (date_from, date_to)
  end.

(** The world in which the wrapped function starts: [open_connection] has
    returned the connection [next_conn w]. *)
Definition after_open {Store : Type} (w : World Store) : World Store :=
  mkWorld (proc w) (S (next_conn w)) (calls w ++ [EvOpen (next_conn w)]).

(** The world after [commit] and then [close] on connection [n]. *)
Definition released {Store : Type} (C : ConnectionClass Store) (n : conn_id)
    (w : World Store) : World Store :=
  fst (close C n (fst (commit C n w))).

(** ** Reading only the rows of one employee *)

(** Every table an [execute] reads is filtered by [e]: the select that reads
    it compares column [employee_id] with a placeholder, and every such
    placeholder carries [e]. *)
Definition reads_only_of (e : value) (ev : event) : Prop :=
  match ev with
  | EvExecute _ query params =>
      Forall (fun scan => snd scan <> [] /\
                          Forall (fun i => nth_error params i = Some e) (snd scan))
             (Sql.table_scans "employee_id" (Sql.tokens query) 0%nat)
  | _ => True
  end.

(** ** A store that takes the text of [salary] as it is meant *)

Definition as_meant (query : string) : string :=
  if String.eqb query salary_query then salary_query_spaced else query.

(** The store behind a driver that puts the blank back between [hour_rate]
    and [FROM] and passes every other text as it is. *)
Definition MendingConnection (rf : list value -> value) : ConnectionClass Sql.database :=
  mkConnectionClass None
    (fun query params p => Sql.sql_execute rf (as_meant query) params p)
    (fun p => p) (fun p => p).

(** A row of [working_log] is one of employee [e] with its seconds between
    [f] and [t], the three comparisons of the statement of [salary]. *)
Definition logged_in_range (e f t : Sql.sqlval) (row : list Sql.sqlval) : bool :=
  Sql.holds Sql.Eq (nth 0 row Sql.Null) e &&
  Sql.holds Sql.Ge (nth 1 row Sql.Null) f &&
  Sql.holds Sql.Le (nth 1 row Sql.Null) t.

(** * Properties *)

(** ** The record of calls *)

Section Traces.
Context {Store : Type} (C : ConnectionClass Store).

Lemma new_calls_app (w w' : World Store) (evs : list event) :
  calls w' = calls w ++ evs -> new_calls w w' = evs.
Proof.
  unfold new_calls. intros ->. induction (calls w) as [|ev l IH]; simpl; auto.
Qed.

Lemma new_calls_refl (w : World Store) : new_calls w w = [].
Proof. apply new_calls_app. now rewrite app_nil_r. Qed.

Lemma execute_calls (c : conn_id) (q : string) (p : list value) (w : World Store) :
  calls (fst (execute C c q p w)) = calls w ++ [EvExecute c q p] /\
  next_conn (fst (execute C c q p w)) = next_conn w.
Proof.
  unfold execute, record_call; simpl.
  destruct (conn_execute C q p (proc w)) as [pr r]; simpl; auto.
Qed.

(** What [execute] answers depends on the store and on standard output only. *)
Lemma execute_outcome (c : conn_id) (q : string) (p : list value) (w : World Store) :
  snd (execute C c q p w) = snd (conn_execute C q p (proc w)).
Proof.
  unfold execute, record_call; simpl.
  destruct (conn_execute C q p (proc w)) as [pr r]; reflexivity.
Qed.

Ltac run_execute :=
  unfold bind, execute, record_call, print, ret, raise, lift, fetchone; simpl;
  repeat match goal with
  | |- context [conn_execute ?C ?q ?p ?pr] =>
      destruct (conn_execute C q p pr) as [? [[|?]|?]]; simpl
  | |- context [unpack2 ?v] => destruct (unpack2 v) as [[? ?]|?]; simpl
  | |- context [py_mul ?a ?b] => destruct (py_mul a b); simpl
  end.

Lemma eager_call_calls (self : Eager.WorkingHourManager) (c : call) (w : World Store) :
  calls (fst (eager_call C self c w)) =
    calls w ++ [EvExecute (Eager._connection self) (call_query c)
                          (call_params (Eager.employee_id self) c)].
Proof.
  destruct c; unfold eager_call, Eager.log, Eager.total, Eager.salary;
    run_execute; reflexivity.
Qed.

Lemma eager_calls_calls (self : Eager.WorkingHourManager) (cs : list call) (w : World Store) :
  calls (eager_calls C self cs w) =
    calls w ++ List.map (fun c => EvExecute (Eager._connection self) (call_query c)
                                            (call_params (Eager.employee_id self) c)) cs.
Proof.
  revert w. induction cs as [|c cs IH]; intros w; simpl.
  - now rewrite app_nil_r.
  - rewrite IH, eager_call_calls, <- app_assoc. reflexivity.
Qed.

(** The decorator when [Connection()] raises: the exception leaves the call,
    the wrapped function is not run and the manager is as it was. *)
Lemma prepare_connection_refused {Args : Type}
    (func : Lazy.WorkingHourManager -> Args -> M Store value)
    (obj : Lazy.WorkingHourManager) (args : Args) (w : World Store) (ex : exn) :
  conn_new C = Some ex ->
  Lazy.prepare_connection C func obj args w = (obj, (w, Raises ex)).
Proof.
  intros H. unfold Lazy.prepare_connection, DbManager.open_connection.
  rewrite H. reflexivity.
Qed.

(** The decorator when [Connection()] returns: the wrapped function runs on
    the manager that holds the new connection; its result is handed back
    after [commit] and [close], its exception at once. *)
Lemma prepare_connection_opened {Args : Type}
    (func : Lazy.WorkingHourManager -> Args -> M Store value)
    (obj : Lazy.WorkingHourManager) (args : Args) (w : World Store) :
  conn_new C = None ->
  Lazy.prepare_connection C func obj args w =
    (Lazy.mkManager (Some (next_conn w)) (Lazy._employee_id obj),
     match snd (func (Lazy.mkManager (Some (next_conn w)) (Lazy._employee_id obj))
                     args (after_open w)) with
     | Returns v =>
         (released C (next_conn w)
            (fst (func (Lazy.mkManager (Some (next_conn w)) (Lazy._employee_id obj))
                       args (after_open w))),
          Returns v)
     | Raises ex =>
         (fst (func (Lazy.mkManager (Some (next_conn w)) (Lazy._employee_id obj))
                    args (after_open w)),
          Raises ex)
     end).
Proof.
  intros H. unfold Lazy.prepare_connection, DbManager.open_connection.
  rewrite H. unfold after_open, released, bind, Lazy.the_connection, ret. simpl.
  destruct (func _ args _) as [wb [v|ex]]; reflexivity.
Qed.

Lemma lazy_call_refused (self : Lazy.WorkingHourManager) (c : call) (w : World Store)
    (ex : exn) :
  conn_new C = Some ex -> lazy_call C self c w = (self, (w, Raises ex)).
Proof.
  intros H. destruct c; apply prepare_connection_refused; exact H.
Qed.

Lemma lazy_call_opened (self : Lazy.WorkingHourManager) (c : call) (w : World Store) :
  conn_new C = None ->
  lazy_call C self c w =
    (Lazy.mkManager (Some (next_conn w)) (Lazy._employee_id self),
     match snd (lazy_body C (Lazy.mkManager (Some (next_conn w)) (Lazy._employee_id self))
                          c (after_open w)) with
     | Returns v =>
         (released C (next_conn w)
            (fst (lazy_body C (Lazy.mkManager (Some (next_conn w)) (Lazy._employee_id self))
                            c (after_open w))),
          Returns v)
     | Raises ex =>
         (fst (lazy_body C (Lazy.mkManager (Some (next_conn w)) (Lazy._employee_id self))
                         c (after_open w)),
          Raises ex)
     end).
Proof.
  intros H. destruct c; unfold lazy_call, Lazy.log, Lazy.total, Lazy.salary;
    rewrite prepare_connection_opened by exact H; reflexivity.
Qed.

(** The wrapped functions send one statement each, on the connection the
    manager holds. *)
Lemma lazy_body_calls (n : conn_id) (e : value) (c : call) (w : World Store) :
  calls (fst (lazy_body C (Lazy.mkManager (Some n) e) c w)) =
    calls w ++ [EvExecute n (call_query c) (call_params e c)] /\
  next_conn (fst (lazy_body C (Lazy.mkManager (Some n) e) c w)) = next_conn w.
Proof.
  destruct c; unfold lazy_body, Lazy.log_body, Lazy.total_body, Lazy.salary_body,
    Lazy.the_connection; run_execute; auto.
Qed.

Lemma released_calls (n : conn_id) (w : World Store) :
  calls (released C n w) = calls w ++ [EvCommit n; EvClose n] /\
  next_conn (released C n w) = next_conn w /\
  proc (released C n w) = conn_close C (conn_commit C (proc w)).
Proof.
  unfold released, close, commit, record_call; simpl.
  rewrite <- app_assoc. auto.
Qed.

Lemma lazy_call_calls (self : Lazy.WorkingHourManager) (c : call) (w : World Store) :
  conn_new C = None ->
  let n := next_conn w in
  let r := lazy_call C self c w in
  fst r = Lazy.mkManager (Some n) (Lazy._employee_id self) /\
  next_conn (fst (snd r)) = S n /\
  calls (fst (snd r)) =
    calls w ++ [EvOpen n; EvExecute n (call_query c)
                            (call_params (Lazy._employee_id self) c)]
            ++ release_calls n (snd (snd r)).
Proof.
  intros H. cbv zeta. rewrite (lazy_call_opened self c w H).
  destruct (lazy_body_calls (next_conn w) (Lazy._employee_id self) c (after_open w))
    as (Hcalls & Hnext).
  destruct (snd (lazy_body C _ c (after_open w))) as [v|ex]; cbn [fst snd].
  - destruct (released_calls (next_conn w)
                (fst (lazy_body C (Lazy.mkManager (Some (next_conn w))
                                      (Lazy._employee_id self)) c (after_open w))))
      as (Hr & Hn & _).
    rewrite Hr, Hn, Hcalls, Hnext. simpl. rewrite <- !app_assoc. auto.
  - rewrite Hcalls, Hnext. simpl. rewrite <- !app_assoc. auto.
Qed.

Lemma lazy_calls_invariant (P : event -> Prop) (e : value) :
  (forall n c r, Forall P ([EvOpen n; EvExecute n (call_query c) (call_params e c)]
                           ++ release_calls n r)) ->
  forall (cs : list call) (self : Lazy.WorkingHourManager) (w : World Store),
    Lazy._employee_id self = e ->
    Lazy._employee_id (fst (lazy_calls C self cs w)) = e /\
    exists evs, calls (snd (lazy_calls C self cs w)) = calls w ++ evs /\ Forall P evs.
Proof.
  intros HP. induction cs as [|c cs IH]; intros self w He; simpl.
  - split; [assumption|]. exists []. now rewrite app_nil_r.
  - destruct (conn_new C) as [ex|] eqn:Hnew.
    + rewrite (lazy_call_refused self c w ex Hnew). simpl. apply IH. exact He.
    + destruct (lazy_call_calls self c w Hnew) as (Hself & _ & Hcalls).
      destruct (IH (fst (lazy_call C self c w)) (fst (snd (lazy_call C self c w))))
        as (He' & evs & Hevs & HF).
      { rewrite Hself. exact He. }
      split; [exact He'|].
      eexists. rewrite Hevs, Hcalls, <- app_assoc. split; [reflexivity|].
      apply Forall_app. split; [|exact HF].
      rewrite He. apply HP.
Qed.

End Traces.

(** ** Connection lifecycle of the second version *)

(** C2, as stated, fails.  On a store that has no tables yet, [total] on the
    second version opens connection 0, sends its statement, and the store
    raises; on the store of the spec, [salary] does the same (its text is no
    statement).  In both calls neither [commit] nor [close] is ever called on
    the connection opened. *)
Lemma lazy_call_that_raises_never_closes :
  let r := Lazy.total (Sql.SqlConnection Sql.tuple_row) (Lazy.mkManager None (VInt 1))
             (initial_world ∅) in
  let s := Lazy.salary (Sql.SqlConnection Sql.tuple_row) (Lazy.mkManager None (VInt 1))
             (VInt 0) (VInt 86400)
             (initial_world (spec_store [[Sql.IntV 1; Sql.IntV 3600]]
                                        [[Sql.IntV 1; Sql.IntV 20]])) in
  (snd (snd r) = Raises QueryError /\
   calls (fst (snd r)) = [EvOpen 0%nat; EvExecute 0%nat total_query [VInt 1]] /\
   count_commits 0%nat (calls (fst (snd r))) = 0%nat /\
   count_closes 0%nat (calls (fst (snd r))) = 0%nat) /\
  (snd (snd s) = Raises QueryError /\
   calls (fst (snd s)) =
     [EvOpen 0%nat; EvExecute 0%nat salary_query [VInt 1; VInt 0; VInt 86400; VInt 1]] /\
   count_commits 0%nat (calls (fst (snd s))) = 0%nat /\
   count_closes 0%nat (calls (fst (snd s))) = 0%nat).
Proof. vm_compute. repeat split; reflexivity. Qed.

(** C2 (amended): what the decorator does on each exit path.  For every
    connection class and whatever function is wrapped: when [Connection()]
    raises, that exception leaves the call and the function is not run; when
    the wrapped function returns, the connection opened for the call is
    committed, then closed, and the function's result is handed back; when
    the wrapped function raises, its exception leaves the call unchanged,
    from the world the function left, with neither [commit] nor [close].
    For [log], [total] and [salary]: the call opens one connection and sends
    one statement on it, and [commit] and [close] are each called once on
    that connection when the wrapped function returns, and not at all when
    it raises. *)
Theorem lazy_release_exactly_when_body_returns :
  forall (Store : Type) (C : ConnectionClass Store),
    (forall (Args : Type) (func : Lazy.WorkingHourManager -> Args -> M Store value)
            (self : Lazy.WorkingHourManager) (args : Args) (w : World Store),
        let n := next_conn w in
        let obj := Lazy.mkManager (Some n) (Lazy._employee_id self) in
        let b := func obj args (after_open w) in
        Lazy.prepare_connection C func self args w =
          match conn_new C with
          | Some ex => (self, (w, Raises ex))
          | None =>
              (obj, match snd b with
                    | Returns v => (released C n (fst b), Returns v)
                    | Raises ex => (fst b, Raises ex)
                    end)
          end) /\
    (forall (self : Lazy.WorkingHourManager) (c : call) (w : World Store),
        let n := next_conn w in
        let obj := Lazy.mkManager (Some n) (Lazy._employee_id self) in
        let b := lazy_body C obj c (after_open w) in
        let r := lazy_call C self c w in
        let evs := new_calls w (fst (snd r)) in
        match conn_new C with
        | Some ex => r = (self, (w, Raises ex))
        | None =>
            snd (snd r) = snd b /\
            evs = [EvOpen n; EvExecute n (call_query c)
                                       (call_params (Lazy._employee_id self) c)]
                    ++ release_calls n (snd b) /\
            match snd b with
            | Returns _ => count_commits n evs = 1%nat /\ count_closes n evs = 1%nat
            | Raises _ => count_commits n evs = 0%nat /\ count_closes n evs = 0%nat
            end
        end).
Proof.
  intros Store C. split.
  - intros Args func self args w. cbv zeta.
    destruct (conn_new C) as [ex|] eqn:Hnew.
    + apply prepare_connection_refused. exact Hnew.
    + apply prepare_connection_opened. exact Hnew.
  - intros self c w. cbv zeta.
    destruct (conn_new C) as [ex|] eqn:Hnew.
    + apply lazy_call_refused. exact Hnew.
    + destruct (lazy_call_calls C self c w Hnew) as (_ & _ & Hcalls).
      assert (Hout : snd (snd (lazy_call C self c w)) =
                     snd (lazy_body C (Lazy.mkManager (Some (next_conn w))
                                         (Lazy._employee_id self)) c (after_open w))).
      { rewrite (lazy_call_opened C self c w Hnew).
        destruct (snd (lazy_body C _ c (after_open w))); reflexivity. }
      split; [exact Hout|].
      erewrite new_calls_app by exact Hcalls.
      rewrite Hout. split; [reflexivity|].
      unfold count_commits, count_closes.
      destruct (snd (lazy_body C _ c (after_open w))); simpl;
        rewrite ?Nat.eqb_refl; auto.
Qed.

(** ** One statement per call *)

(** C7, as stated, fails on the source's own [Connection] when its base is
    the abstract context manager: the class cannot be instantiated, so in the
    second version [total] and [salary] raise [TypeError] when they open
    their connection, and no statement is sent. *)
Lemma lazy_call_on_the_abstract_connection_sends_nothing :
  let w := initial_world tt in
  let r := Lazy.total (Connection AbstractContextManager) (Lazy.mkManager None (VInt 1)) w in
  let s := Lazy.salary (Connection AbstractContextManager) (Lazy.mkManager None (VInt 1))
             (VInt 0) (VInt 86400) w in
  snd (snd r) = Raises TypeError /\
  count_executes (new_calls w (fst (snd r))) = 0%nat /\
  snd (snd s) = Raises TypeError /\
  count_executes (new_calls w (fst (snd s))) = 0%nat.
Proof. vm_compute. repeat split; reflexivity. Qed.

(** C7 (amended): whatever the connection class answers, [total] and
    [salary] call [execute] exactly once in the first version; in the second
    version they call it exactly once when the connection of the call can be
    opened, and not at all when [Connection()] raises. *)
Theorem total_and_salary_execute_once_when_opened :
  forall (Store : Type) (C : ConnectionClass Store) (w : World Store),
    let sent := match conn_new C with None => 1%nat | Some _ => 0%nat end in
    (forall self, count_executes (new_calls w (fst (Eager.total C self w))) = 1%nat) /\
    (forall self date_from date_to,
        count_executes (new_calls w (fst (Eager.salary C self date_from date_to w))) = 1%nat) /\
    (forall self, count_executes (new_calls w (fst (snd (Lazy.total C self w)))) = sent) /\
    (forall self date_from date_to,
        count_executes (new_calls w (fst (snd (Lazy.salary C self date_from date_to w))))
          = sent).
Proof.
  intros Store C w.
  assert (Hlazy : forall self c,
             count_executes (new_calls w (fst (snd (lazy_call C self c w)))) =
               match conn_new C with None => 1%nat | Some _ => 0%nat end).
  { intros self c. destruct (conn_new C) as [ex|] eqn:Hnew.
    - rewrite (lazy_call_refused C self c w ex Hnew). simpl.
      rewrite new_calls_refl. reflexivity.
    - destruct (lazy_call_calls C self c w Hnew) as (_ & _ & H).
      erewrite new_calls_app by exact H.
      destruct (snd (snd (lazy_call C self c w))); reflexivity. }
  cbv zeta. split; [|split; [|split]]; intros.
  - erewrite new_calls_app by exact (eager_call_calls C self CallTotal w).
    reflexivity.
  - erewrite new_calls_app
      by exact (eager_call_calls C self (CallSalary date_from date_to) w).
    reflexivity.
  - exact (Hlazy self CallTotal).
  - exact (Hlazy self (CallSalary date_from date_to)).
Qed.

(** ** Connection lifecycle of the first version *)

(** C8, as stated, fails on the source's own [Connection] when its base is
    the abstract context manager: [WorkingHourManager(1)] raises [TypeError]
    at [Connection()]; no connection is opened and no manager is built. *)
Lemma eager_init_on_the_abstract_connection_raises :
  Eager.__init__ (Connection AbstractContextManager) (VInt 1) (initial_world tt)
    = (initial_world tt, Raises TypeError).
Proof. reflexivity. Qed.

(** C8 (amended): when [Connection()] returns, [__init__] opens one
    connection and keeps it; after that, whatever sequence of [log], [total]
    and [salary] calls is made on the manager, from whatever world, each call
    adds one [execute] on that same connection and nothing else: no
    connection is opened, committed or closed.  When [Connection()] raises,
    [__init__] raises the same, nothing is opened and there is no manager. *)
Theorem eager_connection_opened_once_and_reused :
  forall (Store : Type) (C : ConnectionClass Store) (e : value) (w0 : World Store),
    let n := next_conn w0 in
    let self := Eager.mkManager n e in
    match conn_new C with
    | None =>
        Eager.__init__ C e w0 = (after_open w0, Returns self) /\
        new_calls w0 (fst (Eager.__init__ C e w0)) = [EvOpen n] /\
        forall (cs : list call) (w : World Store),
          new_calls w (eager_calls C self cs w) =
            List.map (fun c => EvExecute n (call_query c) (call_params e c)) cs
    | Some ex => Eager.__init__ C e w0 = (w0, Raises ex)
    end.
Proof.
  intros Store C e w0. cbv zeta.
  unfold Eager.__init__, bind, DbManager.open_connection, ret.
  destruct (conn_new C) as [ex|]; [reflexivity|].
  split; [reflexivity|]. split.
  - apply new_calls_app. reflexivity.
  - intros cs w. apply new_calls_app.
    apply (eager_calls_calls C (Eager.mkManager (next_conn w0) e) cs w).
Qed.

(** ** The bound employee *)

Lemma employee_params_of_log : Sql.params_of_column "employee_id" log_query = [0%nat].
Proof. vm_compute. reflexivity. Qed.

Lemma employee_params_of_total : Sql.params_of_column "employee_id" total_query = [0%nat].
Proof. vm_compute. reflexivity. Qed.

Lemma employee_params_of_salary :
  Sql.params_of_column "employee_id" salary_query = [0%nat; 3%nat].
Proof. vm_compute. reflexivity. Qed.

Lemma call_binds_employee (e : value) (n : conn_id) (c : call) :
  binds_employee e (EvExecute n (call_query c) (call_params e c)).
Proof.
  destruct c; unfold binds_employee, call_query, call_params.
  - rewrite employee_params_of_log. split; [discriminate|]. repeat constructor.
  - rewrite employee_params_of_total. split; [discriminate|]. repeat constructor.
  - rewrite employee_params_of_salary. split; [discriminate|]. repeat constructor.
Qed.

(** The tables the three texts read: [log] reads none, [total] reads
    [working_log], [salary] reads [working_log] and [employee_rates]; each
    under a comparison of [employee_id] with a placeholder. *)
Lemma table_scans_of_the_texts :
  Sql.table_scans "employee_id" (Sql.tokens log_query) 0%nat = [] /\
  Sql.table_scans "employee_id" (Sql.tokens total_query) 0%nat
    = [("working_log", [0%nat])] /\
  Sql.table_scans "employee_id" (Sql.tokens salary_query) 0%nat
    = [("working_log", [0%nat]); ("employee_rates", [3%nat])].
Proof. vm_compute. repeat split; reflexivity. Qed.

Lemma call_reads_only_of_employee (e : value) (n : conn_id) (c : call) :
  reads_only_of e (EvExecute n (call_query c) (call_params e c)).
Proof.
  destruct table_scans_of_the_texts as (Hlog & Htotal & Hsalary).
  destruct c; unfold reads_only_of, call_query, call_params.
  - rewrite Hlog. constructor.
  - rewrite Htotal. repeat constructor. discriminate.
  - rewrite Hsalary. repeat constructor; discriminate.
Qed.


(** ** The module body *)

Lemma exec_kz (g0 : gmap string PyModule.binding) :
  match g0 !! "typing" with
  | Some _ =>
      PyModule.exec g0 PyModule.kz =
        Returns (<["WorkingHourManager" := PyModule.Class PyModule.SecondWorkingHourManager]>
                 (<["WorkingHourManager" := PyModule.Class PyModule.FirstWorkingHourManager]>
                  (<["DbManager" := PyModule.Class PyModule.DbManagerClassObj]>
                   (<["Connection" := PyModule.Class PyModule.ConnectionClassObj]> g0))))
  | None => PyModule.exec g0 PyModule.kz = Raises NameError
  end.
Proof.
  destruct (g0 !! "typing") as [b|] eqn:Ht.
  - unfold PyModule.kz, PyModule.exec, PyModule.exec_stmt, forallb, PyModule.bound.
    rewrite Ht. simpl.
    rewrite lookup_insert_eq. simpl.
    rewrite lookup_insert_ne by discriminate. rewrite lookup_insert_eq. reflexivity.
  - unfold PyModule.kz, PyModule.exec, PyModule.exec_stmt, forallb, PyModule.bound.
    rewrite Ht. reflexivity.
Qed.

(** C10: when the module body runs to its end (the name [typing] is bound
    beforehand, and nothing is bound yet to the class the first [class
    WorkingHourManager] statement will create), the name
    [WorkingHourManager] is bound to the class of the second statement and no
    global name is bound to the class of the first; calling
    [WorkingHourManager(employee_id)] builds a manager of the second version,
    whatever class [Connection] is: no connection is opened and its
    [connection] is [None]. *)
Theorem second_class_statement_rebinds_the_name :
  forall (g0 : gmap string PyModule.binding),
    is_Some (g0 !! "typing") ->
    (forall name, g0 !! name <> Some (PyModule.Class PyModule.FirstWorkingHourManager)) ->
    exists g,
      PyModule.exec g0 PyModule.kz = Returns g /\
      g !! "WorkingHourManager" = Some (PyModule.Class PyModule.SecondWorkingHourManager) /\
      (forall name, g !! name <> Some (PyModule.Class PyModule.FirstWorkingHourManager)) /\
      forall (Store : Type) (C : ConnectionClass Store) (e : value) (w : World Store),
        PyModule.construct C g "WorkingHourManager" e w =
          (w, Returns (PyModule.SecondInstance (Lazy.mkManager None e))).
Proof.
  intros g0 [b Ht] Hfresh.
  pose proof (exec_kz g0) as Hexec. rewrite Ht in Hexec.
  eexists. split; [exact Hexec|].
  split; [apply lookup_insert_eq|].
  split.
  - intros name.
    destruct (decide (name = "WorkingHourManager")) as [->|Hn].
    { rewrite lookup_insert_eq. discriminate. }
    rewrite !(lookup_insert_ne _ "WorkingHourManager") by congruence.
    destruct (decide (name = "DbManager")) as [->|Hd].
    { rewrite lookup_insert_eq. discriminate. }
    rewrite lookup_insert_ne by congruence.
    destruct (decide (name = "Connection")) as [->|Hc].
    { rewrite lookup_insert_eq. discriminate. }
    rewrite lookup_insert_ne by congruence.
    apply Hfresh.
  - intros Store C e w. unfold PyModule.construct.
    rewrite lookup_insert_eq. reflexivity.
Qed.

(** C10 at the globals of a module that has imported [typing] and nothing
    else. *)
Lemma second_class_statement_rebinds_the_name_witness :
  exists g,
    PyModule.exec {["typing" := PyModule.Other]} PyModule.kz = Returns g /\
    g !! "WorkingHourManager" = Some (PyModule.Class PyModule.SecondWorkingHourManager) /\
    (forall name, g !! name <> Some (PyModule.Class PyModule.FirstWorkingHourManager)) /\
    forall (Store : Type) (C : ConnectionClass Store) (e : value) (w : World Store),
      PyModule.construct C g "WorkingHourManager" e w =
        (w, Returns (PyModule.SecondInstance (Lazy.mkManager None e))).
Proof.
  apply (second_class_statement_rebinds_the_name {["typing" := PyModule.Other]}).
  - rewrite lookup_singleton_eq. eexists. reflexivity.
  - intros name. destruct (decide (name = "typing")) as [->|Hn].
    + rewrite lookup_singleton_eq. discriminate.
    + rewrite lookup_singleton_ne by congruence. discriminate.
Defined.

(** ** The three texts as statements *)

Lemma parse_log_query : Sql.parse log_query = Some log_statement.
Proof. vm_compute. reflexivity. Qed.

Lemma parse_total_query : Sql.parse total_query = Some (Sql.Query total_select).
Proof. vm_compute. reflexivity. Qed.

(** The text of [salary] is no statement: where the select list should end
    there is the single word [hour_rateFROM], then a parenthesis. *)
Lemma parse_salary_query :
  Sql.parse salary_query = None /\
  firstn 9 (Sql.tokens salary_query) =
    [Sql.TWord "SELECT"; Sql.TWord "X"; Sql.TDot; Sql.TWord "sum"; Sql.TComma;
     Sql.TWord "Y"; Sql.TDot; Sql.TWord "hour_rateFROM"; Sql.TLParen].
Proof. vm_compute. split; reflexivity. Qed.

(** No amount of fuel makes a select of it. *)
Lemma salary_query_is_no_select (fuel : nat) :
  Sql.parse_select fuel (Sql.tokens salary_query) 0%nat = None.
Proof.
  do 3 (destruct fuel as [|fuel]; [reflexivity|]).
  vm_compute. reflexivity.
Qed.

Lemma parse_salary_query_spaced :
  Sql.parse salary_query_spaced = Some (Sql.Query salary_select_spaced).
Proof. vm_compute. reflexivity. Qed.

Lemma placeholders_log_query : Sql.placeholders log_query = 2%nat.
Proof. vm_compute. reflexivity. Qed.

Lemma placeholders_total_query : Sql.placeholders total_query = 1%nat.
Proof. vm_compute. reflexivity. Qed.

(** ** What the methods return, from what the connection answers *)

Section Outcomes.
Context {Store : Type} (C : ConnectionClass Store).

Lemma eager_total_outcome (self : Eager.WorkingHourManager) (w : World Store) :
  snd (Eager.total C self w) =
    total_outcome (snd (conn_execute C total_query [Eager.employee_id self] (proc w))).
Proof.
  unfold Eager.total, bind, execute, record_call, fetchone, ret, raise; simpl.
  destruct (conn_execute C _ _ _) as [pr [[|rows]|ex]]; reflexivity.
Qed.

Lemma eager_salary_outcome (self : Eager.WorkingHourManager) (date_from date_to : value)
    (w : World Store) :
  snd (Eager.salary C self date_from date_to w) =
    salary_outcome (snd (conn_execute C salary_query
      [Eager.employee_id self; date_from; date_to; Eager.employee_id self] (proc w))).
Proof.
  unfold Eager.salary, salary_outcome.
  unfold bind, execute, record_call, fetchone, ret, raise, lift; simpl.
  destruct (conn_execute C _ _ _) as [pr [[|rows]|ex]]; simpl; try reflexivity.
  destruct (unpack2 (hd VNone rows)) as [pr2|ex]; reflexivity.
Qed.

(** [log] returns [None] unless [execute] raises. *)
Lemma eager_log_outcome (self : Eager.WorkingHourManager) (time : value) (w : World Store) :
  snd (Eager.log C self time w) =
    match snd (conn_execute C log_query [Eager.employee_id self; time]
                 (mkProc (stdout (proc w) ++ [[VStr "Logged working hours"; time]])
                         (store (proc w)))) with
    | Returns _ => Returns VNone
    | Raises ex => Raises ex
    end.
Proof.
  unfold Eager.log, bind, print, execute, record_call, ret; simpl.
  destruct (conn_execute C _ _ _) as [pr [h|ex]]; reflexivity.
Qed.

(** A decorated method gives what the function it wraps gives, when the
    connection can be opened. *)
Lemma lazy_call_outcome (self : Lazy.WorkingHourManager) (c : call) (w : World Store) :
  snd (snd (lazy_call C self c w)) =
    decorated C (snd (lazy_body C (Lazy.mkManager (Some (next_conn w))
                                     (Lazy._employee_id self)) c (after_open w))).
Proof.
  unfold decorated. destruct (conn_new C) as [ex|] eqn:Hnew.
  - rewrite (lazy_call_refused C self c w ex Hnew). reflexivity.
  - rewrite (lazy_call_opened C self c w Hnew).
    destruct (snd (lazy_body C _ c (after_open w))); reflexivity.
Qed.

Lemma lazy_total_outcome (self : Lazy.WorkingHourManager) (w : World Store) :
  snd (snd (Lazy.total C self w)) =
    decorated C
      (total_outcome (snd (conn_execute C total_query [Lazy.employee_id self] (proc w)))).
Proof.
  change (Lazy.total C self w) with (lazy_call C self CallTotal w).
  rewrite lazy_call_outcome. f_equal.
  unfold lazy_body, Lazy.total_body, Lazy.the_connection, after_open,
    bind, execute, record_call, fetchone, ret, raise; simpl.
  destruct (conn_execute C _ _ _) as [pr [[|rows]|ex]]; reflexivity.
Qed.

Lemma lazy_salary_outcome (self : Lazy.WorkingHourManager) (date_from date_to : value)
    (w : World Store) :
  snd (snd (Lazy.salary C self date_from date_to w)) =
    decorated C
      (salary_outcome (snd (conn_execute C salary_query
         [Lazy.employee_id self; date_from; date_to; Lazy.employee_id self] (proc w)))).
Proof.
  change (Lazy.salary C self date_from date_to w)
    with (lazy_call C self (CallSalary date_from date_to) w).
  rewrite lazy_call_outcome. f_equal.
  unfold lazy_body, Lazy.salary_body, Lazy.the_connection, after_open, salary_outcome,
    bind, execute, record_call, fetchone, ret, raise, lift; simpl.
  destruct (conn_execute C _ _ _) as [pr [[|rows]|ex]]; simpl; try reflexivity.
  destruct (unpack2 (hd VNone rows)) as [pr2|ex]; reflexivity.
Qed.

Lemma lazy_log_outcome (self : Lazy.WorkingHourManager) (time : value) (w : World Store) :
  snd (snd (Lazy.log C self time w)) =
    decorated C
      match snd (conn_execute C log_query [Lazy.employee_id self; time]
                   (mkProc (stdout (proc w) ++ [[VStr "Logged working hours"; time]])
                           (store (proc w)))) with
      | Returns _ => Returns VNone
      | Raises ex => Raises ex
      end.
Proof.
  change (Lazy.log C self time w) with (lazy_call C self (CallLog time) w).
  rewrite lazy_call_outcome. f_equal.
  unfold lazy_body, Lazy.log_body, Lazy.the_connection, after_open,
    bind, print, execute, record_call, ret; simpl.
  destruct (conn_execute C _ _ _) as [pr [h|ex]]; reflexivity.
Qed.

End Outcomes.

(** On a class that can be instantiated the decorator adds no outcome. *)
Lemma decorated_sql {A : Type} (rf : list value -> value) (r : outcome A) :
  decorated (Sql.SqlConnection rf) r = r.
Proof. reflexivity. Qed.

(** ** The statements on the store *)

Lemma cross_unit (r : Sql.relation) : Sql.cross r (Sql.mkRelation [] [[]]) = r.
Proof.
  destruct r as [cols rs]. unfold Sql.cross; simpl. rewrite app_nil_r. f_equal.
  induction rs as [|row rs IH]; simpl; [reflexivity|].
  rewrite app_nil_r, IH. reflexivity.
Qed.

Lemma sum_values_snoc_null (l : list Sql.sqlval) (acc : Sql.sqlval) :
  Sql.sum_values acc (l ++ [Sql.Null]) = Sql.sum_values acc l.
Proof.
  revert acc. induction l as [|v l IH]; intros acc; simpl; [reflexivity|].
  destruct v; auto.
Qed.

Lemma positions_from_In {A} (f : A -> bool) (l : list A) (k i : nat) :
  In i (Sql.positions_from f k l) ->
  (k <= i)%nat /\ exists x, nth_error l (i - k) = Some x /\ f x = true.
Proof.
  revert k. induction l as [|a l IH]; intros k Hin; simpl in Hin; [contradiction|].
  apply in_app_or in Hin. destruct Hin as [Hin|Hin].
  - destruct (f a) eqn:Hf; simpl in Hin; [|contradiction].
    destruct Hin as [<-|[]]. split; [lia|].
    exists a. rewrite Nat.sub_diag. auto.
  - apply IH in Hin. destruct Hin as (Hle & x & Hx & Hfx).
    split; [lia|]. exists x. split; [|exact Hfx].
    replace (i - k)%nat with (S (i - S k)) by lia. exact Hx.
Qed.

Lemma all_some_nth_error {A} (l : list (option A)) (xs : list A) (i : nat) (x : A) :
  Sql.all_some l = Some xs -> nth_error l i = Some (Some x) -> nth_error xs i = Some x.
Proof.
  revert xs i. induction l as [|o l IH]; intros xs i Hall Hnth.
  - destruct i; discriminate.
  - simpl in Hall. destruct o as [a|]; [|discriminate].
    destruct (Sql.all_some l) as [ys|] eqn:Hl; [|discriminate].
    injection Hall as <-. destruct i; simpl in *.
    + congruence.
    + eapply IH; eauto.
Qed.

Lemma all_some_map_some {A B : Type} (f : A -> option B) (g : A -> B) (l : list A) :
  (forall x, f x = Some (g x)) -> Sql.all_some (List.map f l) = Some (List.map g l).
Proof.
  intros H. induction l as [|x l IH]; simpl; [reflexivity|].
  rewrite H, IH. reflexivity.
Qed.

(** A column called [time_in_seconds] is neither [employee_id] nor [time]. *)
Lemma time_in_seconds_is_not_inserted (c : string) :
  Sql.same_name "time_in_seconds" c = true ->
  Sql.positions_from (Sql.same_name c) 0%nat ["employee_id"; "time"] = [].
Proof.
  unfold Sql.same_name. intros H. apply String.eqb_eq in H.
  simpl. rewrite <- H. vm_compute. reflexivity.
Qed.

(** The row that the [insert] of [log] adds is null in the column that
    [total] sums. *)
Lemma inserted_row_is_null_in_time_in_seconds
    (tb : Sql.table) (t : string) (vals : list nat) (ps row : list Sql.sqlval) (i : nat) :
  Sql.new_row tb ["employee_id"; "time"] vals ps = Some row ->
  Sql.column_index (List.map (fun c => (Some t, c)) (Sql.columns tb)) None
                   "time_in_seconds" = Some i ->
  nth i row Sql.Null = Sql.Null.
Proof.
  unfold Sql.new_row, Sql.column_index. intros Hrow Hidx.
  destruct (_ && _); [|discriminate].
  destruct (Sql.positions_from _ 0%nat _) as [|j [|? ?]] eqn:Hpos; try discriminate.
  injection Hidx as ->.
  assert (Hin : In i (Sql.positions_from (Sql.column_matches None "time_in_seconds") 0%nat
                     (List.map (fun c => (Some t, c)) (Sql.columns tb))))
    by (rewrite Hpos; left; reflexivity).
  apply positions_from_In in Hin. destruct Hin as (_ & x & Hx & Hfx).
  rewrite Nat.sub_0_r in Hx.
  rewrite nth_error_map in Hx.
  destruct (nth_error (Sql.columns tb) i) as [c|] eqn:Hc; [|discriminate].
  simpl in Hx. injection Hx as <-.
  unfold Sql.column_matches in Hfx. simpl in Hfx. rewrite andb_true_r in Hfx.
  apply nth_error_nth.
  eapply all_some_nth_error; [exact Hrow|].
  rewrite nth_error_map, Hc. unfold option_map.
  rewrite (time_in_seconds_is_not_inserted c Hfx). reflexivity.
Qed.

(** Whatever the tables, the [insert] of [log] leaves the answer to the
    statement of [total] as it was, for every argument. *)
Lemma total_select_ignores_log_insert (db db' : Sql.database) (ps qs : list Sql.sqlval) :
  Sql.run_insert db "working_log" ["employee_id"; "time"] [0%nat; 1%nat] ps = Some db' ->
  Sql.eval_select db' qs total_select = Sql.eval_select db qs total_select.
Proof.
  unfold Sql.run_insert.
  replace (Sql.lower "working_log") with "working_log" by (vm_compute; reflexivity).
  destruct (db !! "working_log") as [tb|] eqn:Htb; [|discriminate].
  destruct (Sql.new_row tb _ _ ps) as [row|] eqn:Hrow; [|discriminate].
  intros [= <-].
  unfold total_select, Sql.eval_select, Sql.eval_source, Sql.scan.
  replace (Sql.lower "working_log") with "working_log" by (vm_compute; reflexivity).
  rewrite lookup_insert_eq, Htb. simpl Sql.columns. simpl Sql.rows.
  rewrite !cross_unit.
  unfold Sql.project. simpl Sql.rel_columns. simpl Sql.rel_rows.
  destruct (Sql.all_some _) as [rconds|]; [|reflexivity].
  simpl existsb. cbv iota. simpl List.map.
  unfold Sql.eval_aggregate. simpl Sql.rel_columns. simpl Sql.rel_rows.
  destruct (Sql.column_index _ None "time_in_seconds") as [i|] eqn:Hi; [|reflexivity].
  rewrite List.filter_app, List.map_app. simpl List.filter.
  destruct (Sql.satisfies rconds row); simpl List.map.
  - rewrite (inserted_row_is_null_in_time_in_seconds tb _ _ _ _ _ Hrow Hi).
    rewrite sum_values_snoc_null. reflexivity.
  - rewrite app_nil_r. reflexivity.
Qed.

(** An [insert] adds a row and leaves tables and columns as they are. *)
Lemma schema_after_insert (db db' : Sql.database) (t : string) (cols : list string)
    (vals : list nat) (ps : list Sql.sqlval) :
  Sql.run_insert db t cols vals ps = Some db' -> Sql.schema db' = Sql.schema db.
Proof.
  unfold Sql.run_insert.
  destruct (db !! Sql.lower t) as [tb|] eqn:Htb; [|discriminate].
  destruct (Sql.new_row tb _ _ ps) as [row|]; [|discriminate].
  intros [= <-]. unfold Sql.schema. rewrite fmap_insert. simpl.
  apply insert_id. rewrite lookup_fmap, Htb. reflexivity.
Qed.

Lemma schema_spec_store (logs rates : list (list Sql.sqlval)) :
  Sql.schema (spec_store logs rates) = spec_store [] [].
Proof.
  unfold Sql.schema, spec_store. rewrite fmap_insert, map_fmap_singleton. reflexivity.
Qed.

Lemma sql_execute_log_query (rf : list value -> value) (params : list value)
    (p : Proc Sql.database) :
  let p' := fst (Sql.sql_execute rf log_query params p) in
  store p' = store p \/
  exists ps, Sql.run_insert (store p) "working_log" ["employee_id"; "time"]
                            [0%nat; 1%nat] ps = Some (store p').
Proof.
  unfold Sql.sql_execute. rewrite parse_log_query. unfold log_statement.
  destruct (_ && _); [|left; reflexivity].
  destruct (Sql.bind_params _) as [ps|ex]; [|left; reflexivity].
  destruct (Sql.run_insert _ _ _ _ ps) as [db'|] eqn:Hins; [|left; reflexivity].
  right. exists ps. exact Hins.
Qed.

Lemma sql_execute_total_query_by_store (rf : list value -> value) (params : list value)
    (p p' : Proc Sql.database) :
  Sql.schema (store p') = Sql.schema (store p) ->
  (forall qs, Sql.eval_select (store p') qs total_select =
              Sql.eval_select (store p) qs total_select) ->
  snd (Sql.sql_execute rf total_query params p') =
  snd (Sql.sql_execute rf total_query params p).
Proof.
  intros Hs H. unfold Sql.sql_execute. rewrite parse_total_query.
  unfold Sql.prepared. rewrite Hs.
  destruct (_ && _); [|reflexivity].
  destruct (Sql.bind_params _) as [ps|ex]; [|reflexivity].
  rewrite H. destruct (Sql.eval_select _ _ _); reflexivity.
Qed.

Lemma total_after_log_insert (rf : list value -> value) (logged asked : list value)
    (p0 p : Proc Sql.database) :
  store p0 = store p ->
  snd (Sql.sql_execute rf total_query asked
         (fst (Sql.sql_execute rf log_query logged p0))) =
  snd (Sql.sql_execute rf total_query asked p).
Proof.
  intros Hp.
  destruct (sql_execute_log_query rf logged p0) as [H|(ps & H)].
  - apply sql_execute_total_query_by_store; [|intros qs]; rewrite H, Hp; reflexivity.
  - rewrite Hp in H. apply sql_execute_total_query_by_store.
    + apply (schema_after_insert _ _ _ _ _ _ H).
    + intros qs. apply (total_select_ignores_log_insert _ _ ps qs H).
Qed.

Lemma eager_log_proc {Store : Type} (C : ConnectionClass Store)
    (self : Eager.WorkingHourManager) (time : value) (w : World Store) :
  proc (fst (Eager.log C self time w)) =
    fst (conn_execute C log_query [Eager.employee_id self; time]
           (mkProc (stdout (proc w) ++ [[VStr "Logged working hours"; time]])
                   (store (proc w)))).
Proof.
  unfold Eager.log, bind, print, execute, record_call, ret; simpl.
  destruct (conn_execute C _ _ _) as [pr [h|ex]]; reflexivity.
Qed.

Lemma lazy_log_proc (rf : list value -> value)
    (self : Lazy.WorkingHourManager) (time : value) (w : World Sql.database) :
  proc (fst (snd (Lazy.log (Sql.SqlConnection rf) self time w))) =
    fst (Sql.sql_execute rf log_query [Lazy.employee_id self; time]
           (mkProc (stdout (proc w) ++ [[VStr "Logged working hours"; time]])
                   (store (proc w)))).
Proof.
  unfold Lazy.log, Lazy.prepare_connection, DbManager.open_connection, Lazy.log_body,
    Lazy.the_connection, commit, close, bind, print, execute, record_call, ret; simpl.
  destruct (Sql.sql_execute rf _ _ _) as [pr [h|ex]]; reflexivity.
Qed.

(** C1 (code bug): on the store, with rows presented in any shape and
    whatever its tables hold, [log] never changes what [total] gives, in
    either version and whoever the two managers are bound to: the [insert] of
    [log] names the column [time], the [sum] of [total] reads the column
    [time_in_seconds], so the logged duration is not part of the aggregate.
    On the source's own [Connection], [total] raises after [log] as it does
    without: at [fetchone] where the class can be instantiated, at
    [Connection()] where it cannot. *)
Theorem log_never_changes_total :
  forall (time : value),
    (forall (rf : list value -> value) (w : World Sql.database),
        (forall logger reader : Eager.WorkingHourManager,
            snd (Eager.total (Sql.SqlConnection rf) reader
                   (fst (Eager.log (Sql.SqlConnection rf) logger time w))) =
            snd (Eager.total (Sql.SqlConnection rf) reader w)) /\
        (forall logger reader : Lazy.WorkingHourManager,
            snd (snd (Lazy.total (Sql.SqlConnection rf) reader
                   (fst (snd (Lazy.log (Sql.SqlConnection rf) logger time w))))) =
            snd (snd (Lazy.total (Sql.SqlConnection rf) reader w)))) /\
    (forall (w : World unit),
        (forall logger reader : Eager.WorkingHourManager,
            snd (Eager.total (Connection ConcreteBase) reader
                   (fst (Eager.log (Connection ConcreteBase) logger time w)))
              = Raises AttributeError) /\
        (forall logger reader : Lazy.WorkingHourManager,
            snd (snd (Lazy.total (Connection ConcreteBase) reader
                   (fst (snd (Lazy.log (Connection ConcreteBase) logger time w)))))
              = Raises AttributeError) /\
        (forall logger reader : Lazy.WorkingHourManager,
            snd (snd (Lazy.total (Connection AbstractContextManager) reader
                   (fst (snd (Lazy.log (Connection AbstractContextManager) logger time w)))))
              = Raises TypeError)).
Proof.
  intros time. split.
  - intros rf w. split; intros logger reader.
    + rewrite !eager_total_outcome, eager_log_proc. simpl conn_execute.
      f_equal. apply total_after_log_insert. reflexivity.
    + rewrite !lazy_total_outcome, lazy_log_proc, !decorated_sql. simpl conn_execute.
      f_equal. apply total_after_log_insert. reflexivity.
  - intros w. split; [|split]; intros logger reader.
    + rewrite eager_total_outcome. reflexivity.
    + rewrite lazy_total_outcome. reflexivity.
    + rewrite lazy_total_outcome. reflexivity.
Qed.

(** C6 (code bug): the scenario [m = WorkingHourManager(1); m.log(3600);
    m.total()], in both versions.  On the store of the spec, [log] raises (the
    table has no column [time]) and [total] then gives the null aggregate; on
    a store that has the column, [log] returns and [total] still gives the
    null aggregate; on the source's own [Connection], [total] raises, and
    where the class cannot be instantiated so does the constructor of the
    first version and every call of the second.  In no case is the result
    [3600 * 3600]. *)
Theorem log_3600_then_total_is_not_scaled_3600 :
  log_then_total_eager (Sql.SqlConnection Sql.tuple_row) (VInt 1) (VInt 3600)
      (initial_world (spec_store [] []))
    = (Raises QueryError, Returns (VTuple [VNone])) /\
  log_then_total_lazy (Sql.SqlConnection Sql.tuple_row) (VInt 1) (VInt 3600)
      (initial_world (spec_store [] []))
    = (Raises QueryError, Returns (VTuple [VNone])) /\
  log_then_total_eager (Sql.SqlConnection Sql.scalar_row) (VInt 1) (VInt 3600)
      (initial_world (spec_store [] []))
    = (Raises QueryError, Returns VNone) /\
  log_then_total_eager (Sql.SqlConnection Sql.scalar_row) (VInt 1) (VInt 3600)
      (initial_world (wide_store [] []))
    = (Returns VNone, Returns VNone) /\
  log_then_total_lazy (Sql.SqlConnection Sql.scalar_row) (VInt 1) (VInt 3600)
      (initial_world (wide_store [] []))
    = (Returns VNone, Returns VNone) /\
  log_then_total_eager (Connection ConcreteBase) (VInt 1) (VInt 3600) (initial_world tt)
    = (Returns VNone, Raises AttributeError) /\
  log_then_total_lazy (Connection ConcreteBase) (VInt 1) (VInt 3600) (initial_world tt)
    = (Returns VNone, Raises AttributeError) /\
  log_then_total_eager (Connection AbstractContextManager) (VInt 1) (VInt 3600)
      (initial_world tt)
    = (Raises TypeError, Raises TypeError) /\
  log_then_total_lazy (Connection AbstractContextManager) (VInt 1) (VInt 3600)
      (initial_world tt)
    = (Raises TypeError, Raises TypeError).
Proof. vm_compute. repeat split; reflexivity. Qed.

(** The factor of the statement of [total], on a store that already holds
    3600 seconds for employee 1 under [time_in_seconds]: the sum is
    multiplied by 60 and by 60 again.  [total] hands back the fetched row; it
    is the number itself only where the driver presents a row of one column
    as that column. *)
Lemma total_scales_stored_seconds_by_3600 :
  let logs := [[Sql.IntV 1; Sql.IntV 3600]] in
  snd (Eager.total (Sql.SqlConnection Sql.scalar_row) (Eager.mkManager 0%nat (VInt 1))
         (initial_world (spec_store logs []))) = Returns (VInt (3600 * 3600)) /\
  snd (snd (Lazy.total (Sql.SqlConnection Sql.scalar_row) (Lazy.mkManager None (VInt 1))
         (initial_world (spec_store logs [])))) = Returns (VInt (3600 * 3600)) /\
  snd (Eager.total (Sql.SqlConnection Sql.tuple_row) (Eager.mkManager 0%nat (VInt 1))
         (initial_world (spec_store logs []))) = Returns (VTuple [VInt (3600 * 3600)]).
Proof. vm_compute. repeat split; reflexivity. Qed.

(** ** [salary] *)

Lemma sql_execute_salary_query (rf : list value -> value) (params : list value)
    (p : Proc Sql.database) :
  Sql.sql_execute rf salary_query params p = (p, Raises QueryError).
Proof.
  unfold Sql.sql_execute. rewrite (proj1 parse_salary_query). reflexivity.
Qed.

(** C3 (code bug): the text [salary] sends is not a statement, because the
    two literals [...Y.hour_rate] and [FROM (SELECT...] are joined with nothing
    between them.  On the store, whatever its tables hold and whatever the
    dates, [salary] raises in both versions and returns no product; on the
    source's own [Connection] it raises too, at [fetchone] where the class
    can be instantiated, at [Connection()] where it cannot. *)
Theorem salary_text_is_rejected_by_the_store :
  Sql.parse salary_query = None /\
  (forall (rf : list value -> value) (date_from date_to : value) (w : World Sql.database),
      (forall self : Eager.WorkingHourManager,
          snd (Eager.salary (Sql.SqlConnection rf) self date_from date_to w)
            = Raises QueryError) /\
      (forall self : Lazy.WorkingHourManager,
          snd (snd (Lazy.salary (Sql.SqlConnection rf) self date_from date_to w))
            = Raises QueryError)) /\
  (forall (date_from date_to : value) (w : World unit),
      (forall self : Eager.WorkingHourManager,
          snd (Eager.salary (Connection ConcreteBase) self date_from date_to w)
            = Raises AttributeError) /\
      (forall self : Lazy.WorkingHourManager,
          snd (snd (Lazy.salary (Connection ConcreteBase) self date_from date_to w))
            = Raises AttributeError) /\
      (forall self : Lazy.WorkingHourManager,
          snd (snd (Lazy.salary (Connection AbstractContextManager) self
                      date_from date_to w))
            = Raises TypeError)).
Proof.
  split; [exact (proj1 parse_salary_query)|]. split.
  - intros rf date_from date_to w. split; intros self.
    + rewrite eager_salary_outcome. simpl conn_execute.
      rewrite sql_execute_salary_query. reflexivity.
    + rewrite lazy_salary_outcome, decorated_sql. simpl conn_execute.
      rewrite sql_execute_salary_query. reflexivity.
  - intros date_from date_to w. split; [|split]; intros self.
    + rewrite eager_salary_outcome. reflexivity.
    + rewrite lazy_salary_outcome. reflexivity.
    + rewrite lazy_salary_outcome. reflexivity.
Qed.

(** With the blank restored the text is the cross join the source means,
    and the store answers it with one row of sum and rate: 7200 seconds in
    range and a rate of 20 give the row (7200, 20). *)
Lemma salary_query_spaced_on_the_store :
  snd (Sql.sql_execute Sql.tuple_row salary_query_spaced
         [VInt 1; VInt 0; VInt 86400; VInt 1]
         (mkProc [] (spec_store [[Sql.IntV 1; Sql.IntV 3600]; [Sql.IntV 2; Sql.IntV 50];
                                 [Sql.IntV 1; Sql.IntV 3600]]
                                [[Sql.IntV 1; Sql.IntV 20]])))
    = Returns (Cursor [VTuple [VInt 7200; VInt 20]]).
Proof. vm_compute. reflexivity. Qed.

Lemma no_rows_in_range (e f t : Sql.sqlval) (logs : list (list Sql.sqlval)) :
  Forall (fun row => logged_in_range e f t row = false) logs ->
  List.filter (Sql.satisfies [(0%nat, Sql.Eq, e); (1%nat, Sql.Ge, f); (1%nat, Sql.Le, t)])
              logs = [].
Proof.
  induction 1 as [|row logs Hrow _ IH]; simpl; [reflexivity|].
  unfold logged_in_range in Hrow. rewrite andb_true_r, andb_assoc, Hrow. exact IH.
Qed.

(** The select of the seconds in range, over no row in range: one row,
    holding null. *)
Lemma sum_in_range_without_rows (e f t x : Sql.sqlval) (logs : list (list Sql.sqlval)) :
  Forall (fun row => logged_in_range e f t row = false) logs ->
  Sql.project [(Sql.Sum "time_in_seconds", Some "sum")]
    [Sql.mkCond "employee_id" Sql.Eq 0%nat;
     Sql.mkCond "time_in_seconds" Sql.Ge 1%nat;
     Sql.mkCond "time_in_seconds" Sql.Le 2%nat]
    (Some 1) [e; f; t; x]
    (Sql.mkRelation [(Some "working_log", "employee_id");
                     (Some "working_log", "time_in_seconds")] logs)
  = Some (Sql.mkRelation [(None, "sum")] [[Sql.Null]]).
Proof.
  intros Hnone. unfold Sql.project.
  simpl Sql.rel_columns. simpl Sql.rel_rows.
  replace (Sql.all_some (List.map _ _))
    with (Some [(0%nat, Sql.Eq, e); (1%nat, Sql.Ge, f); (1%nat, Sql.Le, t)])
    by (vm_compute; reflexivity).
  rewrite (no_rows_in_range e f t logs Hnone).
  vm_compute. reflexivity.
Qed.

(** The select of the rate: the rate in the first row of the employee, if
    there is one. *)
Lemma rate_of_employee (e f t x : Sql.sqlval) (rates : list (list Sql.sqlval)) :
  Sql.project [(Sql.Col None "hour_rate", Some "hour_rate")]
    [Sql.mkCond "employee_id" Sql.Eq 3%nat]
    (Some 1) [x; f; t; e]
    (Sql.mkRelation [(Some "employee_rates", "employee_id");
                     (Some "employee_rates", "hour_rate")] rates)
  = Some (Sql.mkRelation [(None, "hour_rate")]
            (firstn 1 (List.map (fun row => [nth 1 row Sql.Null])
                                (List.filter (Sql.satisfies [(0%nat, Sql.Eq, e)]) rates)))).
Proof.
  unfold Sql.project.
  simpl Sql.rel_columns. simpl Sql.rel_rows.
  replace (Sql.all_some (List.map _ [_]))
    with (Some [(0%nat, Sql.Eq, e)])
    by (vm_compute; reflexivity).
  simpl existsb. cbv iota.
  replace (forallb _ _) with true by (vm_compute; reflexivity).
  rewrite (all_some_map_some _ (fun row => [nth 1 row Sql.Null]))
    by (intros row; vm_compute; reflexivity).
  reflexivity.
Qed.

(** The text of [salary] with its blank, for an employee with no seconds in
    range: the store answers the null sum next to the employee's rate, or no
    row at all when the employee has no rate. *)
Lemma sql_salary_spaced_without_seconds (rf : list value -> value)
    (E F T : value) (e f t : Sql.sqlval)
    (logs rates : list (list Sql.sqlval)) (p : Proc Sql.database) :
  store p = spec_store logs rates ->
  Sql.bind_param E = Some e -> Sql.bind_param F = Some f -> Sql.bind_param T = Some t ->
  Forall (fun row => logged_in_range e f t row = false) logs ->
  Sql.sql_execute rf salary_query_spaced [E; F; T; E] p =
    (p, Returns (Cursor
       (List.map (fun row => rf [VNone; Sql.to_python (nth 1 row Sql.Null)])
                 (firstn 1 (List.filter (Sql.satisfies [(0%nat, Sql.Eq, e)]) rates))))).
Proof.
  intros Hp HE HF HT Hnone. unfold Sql.sql_execute.
  rewrite parse_salary_query_spaced.
  unfold Sql.prepared. rewrite Hp, schema_spec_store.
  replace (Sql.eval_select (spec_store [] []) _ salary_select_spaced) with
    (Some (Sql.mkRelation [(None, "sum"); (None, "hour_rate")] []))
    by (vm_compute; reflexivity).
  replace (Sql.placeholders salary_query_spaced) with 4%nat by (vm_compute; reflexivity).
  simpl andb. cbv iota. simpl Sql.bind_params. rewrite HE, HF, HT. cbv iota.
  unfold salary_select_spaced.
  unfold Sql.eval_select, Sql.eval_source, Sql.scan.
  replace (Sql.lower "working_log") with "working_log" by (vm_compute; reflexivity).
  replace (Sql.lower "employee_rates") with "employee_rates" by (vm_compute; reflexivity).
  unfold spec_store. rewrite lookup_insert_eq.
  rewrite lookup_insert_ne by discriminate. rewrite lookup_singleton_eq.
  rewrite !cross_unit.
  simpl Sql.columns. simpl Sql.rows. simpl List.map.
  rewrite (sum_in_range_without_rows e f t e logs Hnone).
  rewrite (rate_of_employee e f t e rates).
  destruct (List.filter (Sql.satisfies [(0%nat, Sql.Eq, e)]) rates) as [|r rest];
    vm_compute; reflexivity.
Qed.




(** ** [total] *)

(** The rows of [working_log] that belong to employee [e]. *)
Lemma no_rows_of_employee (e : Sql.sqlval) (logs : list (list Sql.sqlval)) :
  Forall (fun row => Sql.holds Sql.Eq (nth 0 row Sql.Null) e = false) logs ->
  List.filter (Sql.satisfies [(0%nat, Sql.Eq, e)]) logs = [].
Proof.
  induction 1 as [|row logs Hrow _ IH]; simpl; [reflexivity|].
  rewrite Hrow. simpl. exact IH.
Qed.

(** The statement of [total] is prepared on the store of the spec. *)
Lemma total_query_prepared (logs rates : list (list Sql.sqlval)) :
  Sql.prepared (spec_store logs rates) (Sql.placeholders total_query)
               (Sql.Query total_select) = true.
Proof.
  unfold Sql.prepared. rewrite schema_spec_store. vm_compute. reflexivity.
Qed.

Lemma sql_total_without_rows (rf : list value -> value) (E : value) (e : Sql.sqlval)
    (logs rates : list (list Sql.sqlval)) (p : Proc Sql.database) :
  store p = spec_store logs rates ->
  Sql.bind_param E = Some e ->
  Forall (fun row => Sql.holds Sql.Eq (nth 0 row Sql.Null) e = false) logs ->
  Sql.sql_execute rf total_query [E] p = (p, Returns (Cursor [rf [VNone]])).
Proof.
  intros Hp HE Hnone. unfold Sql.sql_execute.
  rewrite parse_total_query, Hp, total_query_prepared, placeholders_total_query.
  simpl andb. cbv iota. simpl Sql.bind_params. rewrite HE. cbv iota.
  unfold total_select, Sql.eval_select, Sql.eval_source, Sql.scan.
  replace (Sql.lower "working_log") with "working_log" by (vm_compute; reflexivity).
  unfold spec_store. rewrite lookup_insert_eq.
  rewrite cross_unit. unfold Sql.project.
  simpl Sql.rel_columns. simpl Sql.rel_rows. simpl Sql.columns. simpl Sql.rows.
  simpl List.map.
  replace (Sql.resolve_cond _ [e] _) with (Some (0%nat, Sql.Eq, e))
    by (vm_compute; reflexivity).
  simpl Sql.all_some. cbv beta iota.
  rewrite (no_rows_of_employee e logs Hnone).
  vm_compute. reflexivity.
Qed.

(** C5, as stated, fails: for employee 1 with no row in [working_log],
    [total] gives the fetched row with its null, [(None,)] (or [None] where
    the driver presents a row of one column as that column), and on the
    source's own [Connection] it raises; it never gives 0. *)
Lemma total_without_rows_is_not_zero :
  snd (Eager.total (Sql.SqlConnection Sql.tuple_row) (Eager.mkManager 0%nat (VInt 1))
         (initial_world (spec_store [] []))) = Returns (VTuple [VNone]) /\
  snd (snd (Lazy.total (Sql.SqlConnection Sql.tuple_row) (Lazy.mkManager None (VInt 1))
         (initial_world (spec_store [] [])))) = Returns (VTuple [VNone]) /\
  snd (Eager.total (Sql.SqlConnection Sql.scalar_row) (Eager.mkManager 0%nat (VInt 1))
         (initial_world (spec_store [] []))) = Returns VNone /\
  snd (Eager.total (Connection ConcreteBase) (Eager.mkManager 0%nat (VInt 1))
         (initial_world tt))
    = Raises AttributeError /\
  snd (snd (Lazy.total (Connection ConcreteBase) (Lazy.mkManager None (VInt 1))
         (initial_world tt)))
    = Raises AttributeError /\
  snd (snd (Lazy.total (Connection AbstractContextManager) (Lazy.mkManager None (VInt 1))
         (initial_world tt)))
    = Raises TypeError.
Proof. vm_compute. repeat split; reflexivity. Qed.

(** C5 (amended): [total] handles no edge case.  On the store of the spec,
    for an employee none of whose rows are in [working_log], the sum is null
    and [total] returns, in both versions, the one fetched row as the driver
    presents it, holding [None] where the number would be, not 0. *)
Theorem total_without_rows_is_the_null_row :
  forall (rf : list value -> value) (E : value) (e : Sql.sqlval)
         (logs rates : list (list Sql.sqlval)) (w : World Sql.database),
    store (proc w) = spec_store logs rates ->
    Sql.bind_param E = Some e ->
    Forall (fun row => Sql.holds Sql.Eq (nth 0 row Sql.Null) e = false) logs ->
    (forall n, snd (Eager.total (Sql.SqlConnection rf) (Eager.mkManager n E) w)
                 = Returns (rf [VNone])) /\
    (forall c, snd (snd (Lazy.total (Sql.SqlConnection rf) (Lazy.mkManager c E) w))
                 = Returns (rf [VNone])).
Proof.
  intros rf E e logs rates w Hw HE Hnone. split; intros.
  - rewrite eager_total_outcome. simpl.
    rewrite (sql_total_without_rows rf E e logs rates (proc w) Hw HE Hnone). reflexivity.
  - rewrite lazy_total_outcome, decorated_sql. simpl.
    rewrite (sql_total_without_rows rf E e logs rates (proc w) Hw HE Hnone). reflexivity.
Qed.

(** C5 (amended) for employee 1 on a store that holds 50 seconds of
    employee 2 only, with rows presented as tuples. *)
Lemma total_without_rows_is_the_null_row_witness :
  (forall n, snd (Eager.total (Sql.SqlConnection Sql.tuple_row) (Eager.mkManager n (VInt 1))
                    (initial_world (spec_store [[Sql.IntV 2; Sql.IntV 50]] [])))
               = Returns (VTuple [VNone])) /\
  (forall c, snd (snd (Lazy.total (Sql.SqlConnection Sql.tuple_row)
                    (Lazy.mkManager c (VInt 1))
                    (initial_world (spec_store [[Sql.IntV 2; Sql.IntV 50]] []))))
               = Returns (VTuple [VNone])).
Proof.
  apply (total_without_rows_is_the_null_row Sql.tuple_row (VInt 1) (Sql.IntV 1)
           [[Sql.IntV 2; Sql.IntV 50]] []
           (initial_world (spec_store [[Sql.IntV 2; Sql.IntV 50]] []))).
  - reflexivity.
  - reflexivity.
  - repeat constructor.
Defined.

(** ** Further properties *)

(** X1: when the row fetched for the statement of [salary] holds two
    integers, [salary] returns their product, in both versions; in the second
    version, unless [Connection()] raises, and then nothing is fetched. *)
Theorem salary_returns_the_product_of_the_fetched_pair :
  forall (Store : Type) (C : ConnectionClass Store) (e date_from date_to : value)
         (w : World Store) (t r : Z) (rows : list value),
    snd (conn_execute C salary_query [e; date_from; date_to; e] (proc w))
      = Returns (Cursor (VTuple [VInt t; VInt r] :: rows)) ->
    (forall n, snd (Eager.salary C (Eager.mkManager n e) date_from date_to w)
                 = Returns (VInt (t * r))) /\
    (forall c, snd (snd (Lazy.salary C (Lazy.mkManager c e) date_from date_to w))
                 = decorated C (Returns (VInt (t * r)))).
Proof.
  intros Store C e date_from date_to w t r rows H. split; intros.
  - rewrite eager_salary_outcome. simpl Eager.employee_id. rewrite H. reflexivity.
  - rewrite lazy_salary_outcome. simpl Lazy.employee_id. rewrite H. reflexivity.
Qed.

(** X1 on a connection that answers 7200 seconds and a rate of 20. *)
Lemma salary_returns_the_product_of_the_fetched_pair_witness :
  (forall n, snd (Eager.salary (Replying (Cursor [VTuple [VInt 7200; VInt 20]]))
                    (Eager.mkManager n (VInt 1)) (VInt 0) (VInt 86400) (initial_world tt))
               = Returns (VInt (7200 * 20))) /\
  (forall c, snd (snd (Lazy.salary (Replying (Cursor [VTuple [VInt 7200; VInt 20]]))
                    (Lazy.mkManager c (VInt 1)) (VInt 0) (VInt 86400) (initial_world tt)))
               = Returns (VInt (7200 * 20))).
Proof.
  apply (salary_returns_the_product_of_the_fetched_pair unit
           (Replying (Cursor [VTuple [VInt 7200; VInt 20]]))
           (VInt 1) (VInt 0) (VInt 86400) (initial_world tt) 7200 20 []).
  reflexivity.
Defined.

(** X2: in the second version every call opens a connection of its own, when
    [Connection()] returns: over any sequence of calls the connections opened
    are as many as the calls, each new, in order.  When [Connection()]
    raises, no call opens any. *)
Theorem lazy_calls_open_one_connection_each :
  forall (Store : Type) (C : ConnectionClass Store) (cs : list call)
         (self : Lazy.WorkingHourManager) (w : World Store),
    let k := match conn_new C with None => List.length cs | Some _ => 0%nat end in
    opened (new_calls w (snd (lazy_calls C self cs w))) = seq (next_conn w) k /\
    next_conn (snd (lazy_calls C self cs w)) = (next_conn w + k)%nat.
Proof.
  intros Store C cs. cbv zeta.
  assert (H : forall (self : Lazy.WorkingHourManager) (w : World Store),
             exists evs, calls (snd (lazy_calls C self cs w)) = calls w ++ evs /\
                         opened evs =
                           seq (next_conn w)
                               match conn_new C with
                               | None => List.length cs
                               | Some _ => 0%nat
                               end /\
                         next_conn (snd (lazy_calls C self cs w))
                           = (next_conn w + match conn_new C with
                                            | None => List.length cs
                                            | Some _ => 0%nat
                                            end)%nat).
  { destruct (conn_new C) as [ex|] eqn:Hnew.
    - induction cs as [|c cs IH]; intros self w; simpl.
      + exists []. rewrite app_nil_r, Nat.add_0_r. auto.
      + rewrite (lazy_call_refused C self c w ex Hnew). simpl. apply IH.
    - induction cs as [|c cs IH]; intros self w; simpl.
      + exists []. rewrite app_nil_r, Nat.add_0_r. auto.
      + destruct (lazy_call_calls C self c w Hnew) as (_ & Hnext & Hcalls).
        destruct (IH (fst (lazy_call C self c w)) (fst (snd (lazy_call C self c w))))
          as (evs & Hevs & Hopen & Hn).
        eexists. rewrite Hevs, Hcalls, <- app_assoc. split; [reflexivity|].
        rewrite Hn, Hnext. split; [|lia].
        unfold opened in *. rewrite !flat_map_app, Hopen, Hnext.
        destruct (snd (snd (lazy_call C self c w))); reflexivity. }
  intros self w. destruct (H self w) as (evs & Hevs & Hopen & Hn).
  split; [|exact Hn]. erewrite new_calls_app by exact Hevs. exact Hopen.
Qed.

(** X3: as the file stands it binds [typing] nowhere; run from globals in
    which that name is not bound, the module body raises [NameError] at its
    first statement and binds no name. *)
Theorem module_body_needs_typing :
  forall (g0 : gmap string PyModule.binding),
    g0 !! "typing" = None ->
    PyModule.exec g0 PyModule.kz = Raises NameError.
Proof.
  intros g0 H. pose proof (exec_kz g0) as Hexec. rewrite H in Hexec. exact Hexec.
Qed.

(** X3 from empty globals. *)
Lemma module_body_needs_typing_witness :
  PyModule.exec (∅ : gmap string PyModule.binding) PyModule.kz = Raises NameError.
Proof.
  apply (module_body_needs_typing ∅). apply lookup_empty.
Defined.

(** X4: [total] returns what [fetchone] gives, unchanged: the first of the
    rows the connection answered, or [None] when it answered none; in the
    second version, unless [Connection()] raises, and then nothing is
    fetched. *)
Theorem total_returns_what_fetchone_gives :
  forall (Store : Type) (C : ConnectionClass Store) (e : value) (w : World Store)
         (rows : list value),
    snd (conn_execute C total_query [e] (proc w)) = Returns (Cursor rows) ->
    (forall n, snd (Eager.total C (Eager.mkManager n e) w) = Returns (hd VNone rows)) /\
    (forall c, snd (snd (Lazy.total C (Lazy.mkManager c e) w))
                 = decorated C (Returns (hd VNone rows))).
Proof.
  intros Store C e w rows H. split; intros.
  - rewrite eager_total_outcome. simpl Eager.employee_id. rewrite H. reflexivity.
  - rewrite lazy_total_outcome. simpl Lazy.employee_id. rewrite H. reflexivity.
Qed.

(** X4 on a connection that answers the one row [(12960000,)]. *)
Lemma total_returns_what_fetchone_gives_witness :
  (forall n, snd (Eager.total (Replying (Cursor [VTuple [VInt 12960000]]))
                    (Eager.mkManager n (VInt 1)) (initial_world tt))
               = Returns (VTuple [VInt 12960000])) /\
  (forall c, snd (snd (Lazy.total (Replying (Cursor [VTuple [VInt 12960000]]))
                    (Lazy.mkManager c (VInt 1)) (initial_world tt)))
               = Returns (VTuple [VInt 12960000])).
Proof.
  apply (total_returns_what_fetchone_gives unit (Replying (Cursor [VTuple [VInt 12960000]]))
           (VInt 1) (initial_world tt) [VTuple [VInt 12960000]]).
  reflexivity.
Defined.

(** ** The source's own [Connection] *)

(** X5: [log] on the source's own [Connection].  Where the class can be
    instantiated, [log] returns [None] and writes two lines, its own and then
    the one [execute] prints with the text and the arguments; in the second
    version the call also commits and closes the connection it opened.  Where
    the base of the class is the abstract context manager, [log] of the
    second version raises [TypeError] at [Connection()]: nothing is printed,
    no connection is opened and the manager is as it was; the constructor of
    the first version raises [TypeError] likewise. *)
Theorem log_on_the_source_connection :
  forall (e time : value) (w : World unit),
    (forall n,
        let r := Eager.log (Connection ConcreteBase) (Eager.mkManager n e) time w in
        snd r = Returns VNone /\
        stdout (proc (fst r)) =
          stdout (proc w) ++ [[VStr "Logged working hours"; time];
                              [VStr "Executed query"; VStr log_query; VTuple [e; time]]] /\
        new_calls w (fst r) = [EvExecute n log_query [e; time]]) /\
    (forall c,
        let n := next_conn w in
        let r := Lazy.log (Connection ConcreteBase) (Lazy.mkManager c e) time w in
        snd (snd r) = Returns VNone /\
        stdout (proc (fst (snd r))) =
          stdout (proc w) ++ [[VStr "Logged working hours"; time];
                              [VStr "Executed query"; VStr log_query; VTuple [e; time]]] /\
        new_calls w (fst (snd r)) =
          [EvOpen n; EvExecute n log_query [e; time]; EvCommit n; EvClose n]) /\
    (forall c,
        Lazy.log (Connection AbstractContextManager) (Lazy.mkManager c e) time w
          = (Lazy.mkManager c e, (w, Raises TypeError))) /\
    Eager.__init__ (Connection AbstractContextManager) e w = (w, Raises TypeError).
Proof.
  intros e time w. split; [|split; [|split]]; intros; cbv zeta.
  - split; [reflexivity|]. split.
    + simpl. rewrite <- app_assoc. reflexivity.
    + apply new_calls_app. reflexivity.
  - split; [reflexivity|]. split.
    + simpl. rewrite <- app_assoc. reflexivity.
    + apply new_calls_app. simpl. rewrite <- !app_assoc. reflexivity.
  - reflexivity.
  - reflexivity.
Qed.

(** X6: [total] and [salary] on the source's own [Connection] never return.
    Where the class can be instantiated, each sends its statement, the line
    of [execute] is printed, and [fetchone] raises [AttributeError] (the
    stub's [execute] returns [None]); in the second version the connection
    opened for the call is then neither committed nor closed.  Where the base
    of the class is the abstract context manager, the calls of the second
    version raise [TypeError] at [Connection()] and nothing is sent or
    printed. *)
Theorem total_and_salary_on_the_source_connection_raise :
  forall (e : value) (w : World unit),
    (forall n,
        let r := Eager.total (Connection ConcreteBase) (Eager.mkManager n e) w in
        snd r = Raises AttributeError /\
        stdout (proc (fst r)) =
          stdout (proc w) ++ [[VStr "Executed query"; VStr total_query; VTuple [e]]]) /\
    (forall n date_from date_to,
        let r := Eager.salary (Connection ConcreteBase) (Eager.mkManager n e)
                   date_from date_to w in
        snd r = Raises AttributeError /\
        stdout (proc (fst r)) =
          stdout (proc w) ++ [[VStr "Executed query"; VStr salary_query;
                               VTuple [e; date_from; date_to; e]]]) /\
    (forall conn,
        let n := next_conn w in
        let r := Lazy.total (Connection ConcreteBase) (Lazy.mkManager conn e) w in
        snd (snd r) = Raises AttributeError /\
        new_calls w (fst (snd r)) = [EvOpen n; EvExecute n total_query [e]]) /\
    (forall conn date_from date_to,
        let n := next_conn w in
        let r := Lazy.salary (Connection ConcreteBase) (Lazy.mkManager conn e)
                   date_from date_to w in
        snd (snd r) = Raises AttributeError /\
        new_calls w (fst (snd r)) =
          [EvOpen n; EvExecute n salary_query [e; date_from; date_to; e]]) /\
    (forall conn,
        Lazy.total (Connection AbstractContextManager) (Lazy.mkManager conn e) w
          = (Lazy.mkManager conn e, (w, Raises TypeError))) /\
    (forall conn date_from date_to,
        Lazy.salary (Connection AbstractContextManager) (Lazy.mkManager conn e)
                    date_from date_to w
          = (Lazy.mkManager conn e, (w, Raises TypeError))).
Proof.
  intros e w. split; [|split; [|split; [|split; [|split]]]]; intros; cbv zeta;
    try reflexivity;
    (split; [reflexivity|]);
    try reflexivity;
    apply new_calls_app; simpl; rewrite <- app_assoc; reflexivity.
Qed.

(** ** The two versions side by side *)

(** X7: the two versions answer alike once the connection is there.  For
    every connection class, from the same world and for the same employee,
    each of [log], [total] and [salary] gives in the second version what it
    gives in the first, the same value or the same exception, unless
    [Connection()] raises: then the call of the second version raises that
    exception (in the first version the constructor did).  The [commit] and
    [close] of a connection class return, as the source's do. *)
Theorem both_versions_give_the_same_outcome :
  forall (Store : Type) (C : ConnectionClass Store) (e : value) (c : call)
         (w : World Store) (n : conn_id) (conn : option conn_id),
    snd (snd (lazy_call C (Lazy.mkManager conn e) c w)) =
    decorated C (snd (eager_call C (Eager.mkManager n e) c w)).
Proof.
  intros Store C e c w n conn.
  destruct c as [time| |date_from date_to]; unfold lazy_call, eager_call.
  - rewrite lazy_log_outcome, eager_log_outcome. reflexivity.
  - rewrite lazy_total_outcome, eager_total_outcome. reflexivity.
  - rewrite lazy_salary_outcome, eager_salary_outcome. reflexivity.
Qed.

(** X8: in the second version the manager keeps, in [connection], the
    connection of its latest call, when [Connection()] returns: after any
    call it is the one opened for that call, also once that connection has
    been closed, and over a sequence of calls it is the one opened last.
    When [Connection()] raises, the assignment does not happen and the
    attribute is what it was. *)
Theorem lazy_manager_keeps_its_latest_connection :
  forall (Store : Type) (C : ConnectionClass Store) (cs : list call) (c : call)
         (self : Lazy.WorkingHourManager) (w : World Store),
    match conn_new C with
    | None =>
        Lazy.connection (fst (lazy_calls C self (cs ++ [c]) w)) =
          Some (next_conn w + List.length cs)%nat /\
        Lazy.connection (fst (lazy_call C self c w)) = Some (next_conn w) /\
        match snd (snd (lazy_call C self c w)) with
        | Returns _ =>
            In (EvClose (next_conn w)) (new_calls w (fst (snd (lazy_call C self c w))))
        | Raises _ =>
            ~ In (EvClose (next_conn w)) (new_calls w (fst (snd (lazy_call C self c w))))
        end
    | Some _ =>
        Lazy.connection (fst (lazy_calls C self (cs ++ [c]) w)) = Lazy.connection self /\
        Lazy.connection (fst (lazy_call C self c w)) = Lazy.connection self
    end.
Proof.
  intros Store C cs c self w.
  destruct (conn_new C) as [ex|] eqn:Hnew.
  - split.
    + revert self w. induction cs as [|c0 cs IH]; intros self w; simpl.
      * rewrite (lazy_call_refused C self c w ex Hnew). reflexivity.
      * rewrite (lazy_call_refused C self c0 w ex Hnew). simpl. apply IH.
    + rewrite (lazy_call_refused C self c w ex Hnew). reflexivity.
  - split.
    + revert self w. induction cs as [|c0 cs IH]; intros self w; simpl.
      * destruct (lazy_call_calls C self c w Hnew) as (Hself & _ & _).
        rewrite Hself, Nat.add_0_r. reflexivity.
      * destruct (lazy_call_calls C self c0 w Hnew) as (_ & Hnext & _).
        rewrite IH, Hnext. f_equal. lia.
    + destruct (lazy_call_calls C self c w Hnew) as (Hself & _ & Hcalls).
      erewrite new_calls_app by exact Hcalls. rewrite Hself.
      split; [reflexivity|].
      destruct (snd (snd (lazy_call C self c w))); simpl.
      * auto.
      * intros [H|[H|[]]]; discriminate.
Qed.

(** X9: every manager of the first version holds a connection of its own,
    when [Connection()] returns.  Building managers one after the other opens
    one connection each, in order, and no two of the managers share a
    connection; each keeps the [employee_id] it was given.  When
    [Connection()] raises, the first construction raises and no manager is
    built. *)
Theorem eager_managers_hold_distinct_connections :
  forall (Store : Type) (C : ConnectionClass Store) (es : list value) (w : World Store),
    let ms := fst (eager_inits C es w) in
    match conn_new C with
    | None =>
        List.map Eager._connection ms = seq (next_conn w) (List.length es) /\
        NoDup (List.map Eager._connection ms) /\
        List.map Eager.employee_id ms = es /\
        new_calls w (snd (eager_inits C es w)) =
          List.map EvOpen (seq (next_conn w) (List.length es))
    | Some _ => ms = [] /\ snd (eager_inits C es w) = w
    end.
Proof.
  intros Store C es w. cbv zeta.
  destruct (conn_new C) as [ex|] eqn:Hnew.
  - destruct es as [|e es]; simpl; [auto|].
    unfold Eager.__init__, bind, DbManager.open_connection. rewrite Hnew. auto.
  - assert (H : List.map Eager._connection (fst (eager_inits C es w))
                  = seq (next_conn w) (List.length es) /\
                List.map Eager.employee_id (fst (eager_inits C es w)) = es /\
                calls (snd (eager_inits C es w))
                  = calls w ++ List.map EvOpen (seq (next_conn w) (List.length es))).
    { revert w. induction es as [|e es IH]; intros w; simpl.
      - rewrite app_nil_r. auto.
      - unfold Eager.__init__, bind, DbManager.open_connection, ret. rewrite Hnew.
        destruct (IH (mkWorld (proc w) (S (next_conn w))
                              (calls w ++ [EvOpen (next_conn w)])))
          as (Hc & He & Hcalls).
        simpl in Hc, Hcalls. simpl. rewrite Hc, He, Hcalls, <- app_assoc. auto. }
    destruct H as (Hc & He & Hcalls).
    split; [exact Hc|]. split; [rewrite Hc; apply NoDup_seq|].
    split; [exact He|]. apply new_calls_app. exact Hcalls.
Qed.

(** ** What is sent *)

Lemma placeholders_salary_query : Sql.placeholders salary_query = 4%nat.
Proof. vm_compute. reflexivity. Qed.

Lemma call_is_well_formed (e : value) (n : conn_id) (c : call) :
  well_formed_execute (EvExecute n (call_query c) (call_params e c)).
Proof.
  destruct c; simpl.
  - rewrite placeholders_log_query. auto.
  - rewrite placeholders_total_query. auto.
  - rewrite placeholders_salary_query. auto 6.
Qed.

(** X10: the arguments never reach the text.  Over any sequence of calls, in
    both versions and whatever the employee, the durations and the dates,
    every statement sent is one of the three texts the source spells out, and
    it comes with exactly as many arguments as it has placeholders. *)
Theorem every_statement_is_a_fixed_text_with_its_arguments :
  forall (Store : Type) (C : ConnectionClass Store) (cs : list call) (w : World Store),
    (forall self : Eager.WorkingHourManager,
        Forall well_formed_execute (new_calls w (eager_calls C self cs w))) /\
    (forall self : Lazy.WorkingHourManager,
        Forall well_formed_execute (new_calls w (snd (lazy_calls C self cs w)))).
Proof.
  intros Store C cs w. split; intros self.
  - erewrite new_calls_app by exact (eager_calls_calls C self cs w).
    induction cs as [|c cs' IH]; simpl; constructor;
      [apply call_is_well_formed | exact IH].
  - destruct (lazy_calls_invariant C well_formed_execute (Lazy._employee_id self))
      with (cs := cs) (self := self) (w := w) as (_ & evs & Hevs & HF).
    + intros n c r. constructor; [exact I|]. constructor; [apply call_is_well_formed|].
      destruct r; simpl; repeat constructor.
    + reflexivity.
    + erewrite new_calls_app by exact Hevs. exact HF.
Qed.

(** X11: [salary] needs a row of exactly two items.  Whatever the connection
    class, when the row fetched is a tuple of another length, the unpacking
    raises [ValueError] in both versions and nothing is multiplied; in the
    second version, unless [Connection()] raises, and then nothing is
    fetched. *)
Theorem salary_raises_on_a_row_of_another_length :
  forall (Store : Type) (C : ConnectionClass Store) (e date_from date_to : value)
         (w : World Store) (items rows : list value),
    snd (conn_execute C salary_query [e; date_from; date_to; e] (proc w))
      = Returns (Cursor (VTuple items :: rows)) ->
    List.length items <> 2%nat ->
    (forall n, snd (Eager.salary C (Eager.mkManager n e) date_from date_to w)
                 = Raises ValueError) /\
    (forall c, snd (snd (Lazy.salary C (Lazy.mkManager c e) date_from date_to w))
                 = decorated C (Raises ValueError)).
Proof.
  intros Store C e date_from date_to w items rows H Hlen.
  assert (Hout : salary_outcome (Returns (Cursor (VTuple items :: rows))) = Raises ValueError).
  { unfold salary_outcome. simpl.
    destruct items as [|a [|b [|c l]]]; try reflexivity. contradiction Hlen. reflexivity. }
  split; intros.
  - rewrite eager_salary_outcome. simpl Eager.employee_id. rewrite H. exact Hout.
  - rewrite lazy_salary_outcome. simpl Lazy.employee_id. rewrite H, Hout. reflexivity.
Qed.

(** X11 on a connection that answers a row of one item. *)
Lemma salary_raises_on_a_row_of_another_length_witness :
  (forall n, snd (Eager.salary (Replying (Cursor [VTuple [VInt 7200]]))
                    (Eager.mkManager n (VInt 1)) (VInt 0) (VInt 86400) (initial_world tt))
               = Raises ValueError) /\
  (forall c, snd (snd (Lazy.salary (Replying (Cursor [VTuple [VInt 7200]]))
                    (Lazy.mkManager c (VInt 1)) (VInt 0) (VInt 86400) (initial_world tt)))
               = Raises ValueError).
Proof.
  apply (salary_raises_on_a_row_of_another_length unit (Replying (Cursor [VTuple [VInt 7200]]))
           (VInt 1) (VInt 0) (VInt 86400) (initial_world tt) [VInt 7200] []).
  - reflexivity.
  - simpl. lia.
Defined.

(** ** The managers on the store *)

Lemma sql_execute_log_on_spec_store (rf : list value -> value) (params : list value)
    (logs rates : list (list Sql.sqlval)) (p : Proc Sql.database) :
  store p = spec_store logs rates ->
  Sql.sql_execute rf log_query params p = (p, Raises QueryError).
Proof.
  intros Hp. unfold Sql.sql_execute. rewrite parse_log_query.
  unfold log_statement, Sql.prepared.
  replace (Sql.lower "working_log") with "working_log" by (vm_compute; reflexivity).
  rewrite Hp. unfold spec_store. rewrite lookup_insert_eq.
  simpl Sql.columns.
  replace (forallb _ ["employee_id"; "time"]) with false by (vm_compute; reflexivity).
  reflexivity.
Qed.

(** The statement of [log] is prepared on a store that has the column
    [time]. *)
Lemma log_query_prepared (logs rates : list (list Sql.sqlval)) :
  Sql.prepared (wide_store logs rates) (Sql.placeholders log_query) log_statement = true.
Proof.
  unfold log_statement, Sql.prepared.
  replace (Sql.lower "working_log") with "working_log" by (vm_compute; reflexivity).
  unfold wide_store. rewrite lookup_insert_eq. vm_compute. reflexivity.
Qed.

Lemma sql_execute_log_on_wide_store (rf : list value -> value) (E D : value)
    (e d : Sql.sqlval) (logs rates : list (list Sql.sqlval)) (p : Proc Sql.database) :
  store p = wide_store logs rates ->
  Sql.bind_param E = Some e ->
  Sql.bind_param D = Some d ->
  Sql.sql_execute rf log_query [E; D] p =
    (mkProc (stdout p) (wide_store (logs ++ [[e; d; Sql.Null]]) rates),
     Returns (Cursor [])).
Proof.
  intros Hp HE HD. unfold Sql.sql_execute.
  rewrite parse_log_query, Hp, log_query_prepared, placeholders_log_query.
  simpl andb. cbv iota. simpl Sql.bind_params. rewrite HE, HD. cbv beta iota.
  unfold log_statement, Sql.run_insert.
  replace (Sql.lower "working_log") with "working_log" by (vm_compute; reflexivity).
  unfold wide_store. rewrite lookup_insert_eq.
  replace (Sql.new_row _ _ _ [e; d]) with (Some [e; d; Sql.Null])
    by (vm_compute; reflexivity).
  simpl Sql.columns. simpl Sql.rows. rewrite insert_insert_eq. reflexivity.
Qed.

(** An [int] beyond 64 bits as the duration: the statement is prepared, the
    employee is bound, and binding the duration raises; nothing is written. *)
Lemma sql_execute_log_oversized (rf : list value -> value) (E : value) (e : Sql.sqlval)
    (z : Z) (logs rates : list (list Sql.sqlval)) (p : Proc Sql.database) :
  store p = wide_store logs rates ->
  Sql.bind_param E = Some e ->
  Sql.fits_int64 z = false ->
  Sql.sql_execute rf log_query [E; VInt z] p = (p, Raises OverflowError).
Proof.
  intros Hp HE Hz. unfold Sql.sql_execute.
  rewrite parse_log_query, Hp, log_query_prepared, placeholders_log_query.
  simpl andb. cbv iota. simpl Sql.bind_params. rewrite HE, Hz. reflexivity.
Qed.

(** X12: on the store of the spec, [log] stores nothing.  Whatever the
    employee, the duration and the rows already there, the [insert] is
    refused (the table has no column [time]): [log] raises in both versions
    and the tables are as before; in the second version the connection opened
    for the call stays open. *)
Theorem log_is_refused_by_the_store_of_the_spec :
  forall (rf : list value -> value) (logs rates : list (list Sql.sqlval))
         (time : value) (w : World Sql.database),
    store (proc w) = spec_store logs rates ->
    (forall self : Eager.WorkingHourManager,
        let r := Eager.log (Sql.SqlConnection rf) self time w in
        snd r = Raises QueryError /\ store (proc (fst r)) = spec_store logs rates) /\
    (forall self : Lazy.WorkingHourManager,
        let r := Lazy.log (Sql.SqlConnection rf) self time w in
        snd (snd r) = Raises QueryError /\
        store (proc (fst (snd r))) = spec_store logs rates /\
        count_closes (next_conn w) (new_calls w (fst (snd r))) = 0%nat).
Proof.
  intros rf logs rates time w Hw. split; intros self; cbv zeta.
  - rewrite eager_log_outcome, eager_log_proc. simpl conn_execute.
    rewrite (sql_execute_log_on_spec_store rf _ logs rates) by exact Hw.
    split; [reflexivity|exact Hw].
  - assert (Hout : snd (snd (Lazy.log (Sql.SqlConnection rf) self time w))
                     = Raises QueryError).
    { rewrite lazy_log_outcome, decorated_sql. simpl conn_execute.
      rewrite (sql_execute_log_on_spec_store rf _ logs rates) by exact Hw. reflexivity. }
    split; [exact Hout|]. split.
    + rewrite lazy_log_proc.
      rewrite (sql_execute_log_on_spec_store rf _ logs rates) by exact Hw. exact Hw.
    + destruct (lazy_call_calls (Sql.SqlConnection rf) self (CallLog time) w eq_refl)
        as (_ & _ & Hcalls).
      change (lazy_call (Sql.SqlConnection rf) self (CallLog time) w)
        with (Lazy.log (Sql.SqlConnection rf) self time w) in Hcalls.
      rewrite Hout in Hcalls.
      erewrite new_calls_app by exact Hcalls. reflexivity.
Qed.

(** X12 for employee 1 logging 3600 seconds on an empty store, rows as
    tuples. *)
Lemma log_is_refused_by_the_store_of_the_spec_witness :
  (forall self : Eager.WorkingHourManager,
      let r := Eager.log (Sql.SqlConnection Sql.tuple_row) self (VInt 3600)
                 (initial_world (spec_store [] [])) in
      snd r = Raises QueryError /\ store (proc (fst r)) = spec_store [] []) /\
  (forall self : Lazy.WorkingHourManager,
      let r := Lazy.log (Sql.SqlConnection Sql.tuple_row) self (VInt 3600)
                 (initial_world (spec_store [] [])) in
      snd (snd r) = Raises QueryError /\
      store (proc (fst (snd r))) = spec_store [] [] /\
      count_closes (next_conn (initial_world (spec_store [] [])))
        (new_calls (initial_world (spec_store [] [])) (fst (snd r))) = 0%nat).
Proof.
  apply (log_is_refused_by_the_store_of_the_spec Sql.tuple_row [] [] (VInt 3600)
           (initial_world (spec_store [] []))).
  reflexivity.
Defined.

(** X13: on a store whose [working_log] has the column [time] beside
    [employee_id] and [time_in_seconds], for an employee and a duration that
    can be bound (an [int] within 64 bits, a [str] or [None]), [log] of the
    second version returns [None], adds exactly one row, the employee, the
    duration under [time] and null under [time_in_seconds], leaving the rows
    that were there and the other table untouched, and commits and closes the
    connection it wrote on.  [log] of the first version returns [None] and
    writes the same row on the manager's connection, and no [commit]
    follows. *)
Theorem log_appends_one_row_under_time :
  forall (rf : list value -> value) (logs rates : list (list Sql.sqlval))
         (E D : value) (e d : Sql.sqlval) (w : World Sql.database),
    store (proc w) = wide_store logs rates ->
    Sql.bind_param E = Some e ->
    Sql.bind_param D = Some d ->
    (forall c,
        let n := next_conn w in
        let r := Lazy.log (Sql.SqlConnection rf) (Lazy.mkManager c E) D w in
        snd (snd r) = Returns VNone /\
        store (proc (fst (snd r))) = wide_store (logs ++ [[e; d; Sql.Null]]) rates /\
        new_calls w (fst (snd r)) =
          [EvOpen n; EvExecute n log_query [E; D]; EvCommit n; EvClose n]) /\
    (forall n,
        let r := Eager.log (Sql.SqlConnection rf) (Eager.mkManager n E) D w in
        snd r = Returns VNone /\
        store (proc (fst r)) = wide_store (logs ++ [[e; d; Sql.Null]]) rates /\
        new_calls w (fst r) = [EvExecute n log_query [E; D]]).
Proof.
  intros rf logs rates E D e d w Hw HE HD. split; intros x; cbv zeta.
  - assert (Hout : snd (snd (Lazy.log (Sql.SqlConnection rf) (Lazy.mkManager x E) D w))
                     = Returns VNone).
    { rewrite lazy_log_outcome, decorated_sql. simpl conn_execute. simpl Lazy.employee_id.
      rewrite (sql_execute_log_on_wide_store rf E D e d logs rates) by assumption.
      reflexivity. }
    split; [exact Hout|]. split.
    + rewrite lazy_log_proc. simpl Lazy.employee_id.
      rewrite (sql_execute_log_on_wide_store rf E D e d logs rates) by assumption.
      reflexivity.
    + destruct (lazy_call_calls (Sql.SqlConnection rf) (Lazy.mkManager x E)
                  (CallLog D) w eq_refl) as (_ & _ & Hcalls).
      change (lazy_call (Sql.SqlConnection rf) (Lazy.mkManager x E) (CallLog D) w)
        with (Lazy.log (Sql.SqlConnection rf) (Lazy.mkManager x E) D w) in Hcalls.
      rewrite Hout in Hcalls.
      erewrite new_calls_app by exact Hcalls. reflexivity.
  - rewrite eager_log_outcome, eager_log_proc. simpl conn_execute. simpl Eager.employee_id.
    rewrite (sql_execute_log_on_wide_store rf E D e d logs rates) by assumption.
    split; [reflexivity|]. split; [reflexivity|].
    erewrite new_calls_app
      by exact (eager_call_calls (Sql.SqlConnection rf) (Eager.mkManager x E) (CallLog D) w).
    reflexivity.
Qed.

(** X13 for employee 1 logging 3600 seconds on a store that holds one row
    of employee 2. *)
Lemma log_appends_one_row_under_time_witness :
  let logs := [[Sql.IntV 2; Sql.IntV 50; Sql.Null]] in
  let w := initial_world (wide_store logs []) in
  (forall c,
      let n := next_conn w in
      let r := Lazy.log (Sql.SqlConnection Sql.tuple_row) (Lazy.mkManager c (VInt 1))
                 (VInt 3600) w in
      snd (snd r) = Returns VNone /\
      store (proc (fst (snd r))) =
        wide_store (logs ++ [[Sql.IntV 1; Sql.IntV 3600; Sql.Null]]) [] /\
      new_calls w (fst (snd r)) =
        [EvOpen n; EvExecute n log_query [VInt 1; VInt 3600]; EvCommit n; EvClose n]) /\
  (forall n,
      let r := Eager.log (Sql.SqlConnection Sql.tuple_row) (Eager.mkManager n (VInt 1))
                 (VInt 3600) w in
      snd r = Returns VNone /\
      store (proc (fst r)) =
        wide_store (logs ++ [[Sql.IntV 1; Sql.IntV 3600; Sql.Null]]) [] /\
      new_calls w (fst r) = [EvExecute n log_query [VInt 1; VInt 3600]]).
Proof.
  apply (log_appends_one_row_under_time Sql.tuple_row
           [[Sql.IntV 2; Sql.IntV 50; Sql.Null]] [] (VInt 1) (VInt 3600)
           (Sql.IntV 1) (Sql.IntV 3600)
           (initial_world (wide_store [[Sql.IntV 2; Sql.IntV 50; Sql.Null]] [])));
    reflexivity.
Defined.

Lemma sum_values_ints (zs : list Z) (a : Z) :
  Sql.sum_values (Sql.IntV a) (List.map Sql.IntV zs) = Some (Sql.IntV (a + sum_seconds zs)).
Proof.
  revert a. induction zs as [|z zs IH]; intros a; simpl.
  - rewrite Z.add_0_r. reflexivity.
  - rewrite IH. do 2 f_equal. lia.
Qed.

Lemma sum_values_some_ints (zs : list Z) :
  zs <> [] ->
  Sql.sum_values Sql.Null (List.map Sql.IntV zs) = Some (Sql.IntV (sum_seconds zs)).
Proof.
  destruct zs as [|z zs]; [congruence|]. intros _. simpl. apply sum_values_ints.
Qed.

Lemma rows_of_employee (e : Z) (logs : list (Z * Z)) :
  List.map (fun row => nth 1 row Sql.Null)
    (List.filter (Sql.satisfies [(0%nat, Sql.Eq, Sql.IntV e)]) (int_rows logs)) =
  List.map Sql.IntV (seconds_of e logs).
Proof.
  unfold int_rows, seconds_of. induction logs as [|[i s] logs IH]; simpl; [reflexivity|].
  rewrite andb_true_r. destruct (i =? e)%Z; simpl; rewrite IH; reflexivity.
Qed.

Lemma sql_total_of_logged_seconds (rf : list value -> value) (e : Z)
    (logs : list (Z * Z)) (rates : list (list Sql.sqlval)) (p : Proc Sql.database) :
  store p = spec_store (int_rows logs) rates ->
  Sql.fits_int64 e = true ->
  seconds_of e logs <> [] ->
  Sql.sql_execute rf total_query [VInt e] p =
    (p, Returns (Cursor [rf [VInt (sum_seconds (seconds_of e logs) * 60 * 60)]])).
Proof.
  intros Hp He Hne. unfold Sql.sql_execute.
  rewrite parse_total_query, Hp, total_query_prepared, placeholders_total_query.
  simpl andb. cbv iota. simpl Sql.bind_params. rewrite He. cbv beta iota.
  unfold total_select, Sql.eval_select, Sql.eval_source, Sql.scan.
  replace (Sql.lower "working_log") with "working_log" by (vm_compute; reflexivity).
  unfold spec_store. rewrite lookup_insert_eq.
  rewrite cross_unit. unfold Sql.project.
  simpl Sql.rel_columns. simpl Sql.rel_rows. simpl Sql.columns. simpl Sql.rows.
  simpl List.map.
  replace (Sql.resolve_cond _ [Sql.IntV e] _) with (Some (0%nat, Sql.Eq, Sql.IntV e))
    by (vm_compute; reflexivity).
  simpl Sql.all_some. cbv beta iota.
  simpl existsb. cbv iota. unfold Sql.eval_aggregate.
  simpl Sql.rel_columns. simpl Sql.rel_rows.
  replace (Sql.column_index
             [(Some "working_log", "employee_id"); (Some "working_log", "time_in_seconds")]
             None "time_in_seconds") with (Some 1%nat)
    by (vm_compute; reflexivity).
  rewrite rows_of_employee, (sum_values_some_ints _ Hne).
  reflexivity.
Qed.

(** X14: what [total] computes on the store of the spec, within 64 bits.
    For an employee with at least one row in [working_log], the table holding
    64-bit integers, the seconds none below zero, and the sum of the
    employee's seconds times 3600 within 64 bits: [total] returns in both
    versions the one fetched row, whose only column is the sum of that
    employee's seconds, and of no other employee's, multiplied by 60 and by
    60 again. *)
Theorem total_is_3600_times_the_logged_seconds :
  forall (rf : list value -> value) (e : Z) (logs : list (Z * Z))
         (rates : list (list Sql.sqlval)) (w : World Sql.database),
    store (proc w) = spec_store (int_rows logs) rates ->
    Sql.fits_int64 e = true ->
    Forall (fun r => Sql.fits_int64 (fst r) = true /\ 0 <= snd r < 2 ^ 63) logs ->
    sum_seconds (seconds_of e logs) * 60 * 60 < 2 ^ 63 ->
    seconds_of e logs <> [] ->
    (forall n, snd (Eager.total (Sql.SqlConnection rf) (Eager.mkManager n (VInt e)) w)
                 = Returns (rf [VInt (sum_seconds (seconds_of e logs) * 60 * 60)])) /\
    (forall c, snd (snd (Lazy.total (Sql.SqlConnection rf) (Lazy.mkManager c (VInt e)) w))
                 = Returns (rf [VInt (sum_seconds (seconds_of e logs) * 60 * 60)])).
Proof.
  intros rf e logs rates w Hw He _ _ Hne. split; intros.
  - rewrite eager_total_outcome. simpl.
    rewrite (sql_total_of_logged_seconds rf e logs rates (proc w) Hw He Hne). reflexivity.
  - rewrite lazy_total_outcome, decorated_sql. simpl.
    rewrite (sql_total_of_logged_seconds rf e logs rates (proc w) Hw He Hne). reflexivity.
Qed.

(** X14 for employee 1 with 3600 and 1800 seconds, beside 50 seconds of
    employee 2: 5400 seconds give 19440000. *)
Lemma total_is_3600_times_the_logged_seconds_witness :
  let logs := [(1, 3600); (2, 50); (1, 1800)] in
  (forall n, snd (Eager.total (Sql.SqlConnection Sql.tuple_row) (Eager.mkManager n (VInt 1))
                    (initial_world (spec_store (int_rows logs) [])))
               = Returns (VTuple [VInt (sum_seconds (seconds_of 1 logs) * 60 * 60)])) /\
  (forall c, snd (snd (Lazy.total (Sql.SqlConnection Sql.tuple_row)
                    (Lazy.mkManager c (VInt 1))
                    (initial_world (spec_store (int_rows logs) []))))
               = Returns (VTuple [VInt (sum_seconds (seconds_of 1 logs) * 60 * 60)])).
Proof.
  apply (total_is_3600_times_the_logged_seconds Sql.tuple_row 1
           [(1, 3600); (2, 50); (1, 1800)] []
           (initial_world (spec_store (int_rows [(1, 3600); (2, 50); (1, 1800)]) []))).
  - reflexivity.
  - reflexivity.
  - repeat constructor; simpl; lia.
  - vm_compute. reflexivity.
  - discriminate.
Defined.

Lemma sql_execute_total_query_proc (rf : list value -> value) (params : list value)
    (p : Proc Sql.database) :
  fst (Sql.sql_execute rf total_query params p) = p.
Proof.
  unfold Sql.sql_execute. rewrite parse_total_query.
  destruct (_ && _); [|reflexivity].
  destruct (Sql.bind_params _) as [ps|ex]; [|reflexivity].
  destruct (Sql.eval_select _ _ _); reflexivity.
Qed.

Lemma eager_call_proc {Store : Type} (C : ConnectionClass Store)
    (self : Eager.WorkingHourManager) (c : call) (w : World Store) :
  match c with
  | CallLog _ => True
  | _ => proc (fst (eager_call C self c w)) =
           fst (conn_execute C (call_query c) (call_params (Eager.employee_id self) c) (proc w))
  end.
Proof.
  destruct c; [exact I| |]; unfold eager_call, Eager.total, Eager.salary,
    bind, execute, record_call, fetchone, ret, raise, lift; simpl.
  - destruct (conn_execute C _ _ _) as [pr [[|rows]|ex]]; reflexivity.
  - destruct (conn_execute C _ _ _) as [pr [[|rows]|ex]]; simpl; try reflexivity.
    destruct (unpack2 (hd VNone rows)) as [pr2|ex]; reflexivity.
Qed.

Lemma lazy_call_proc {Store : Type} (C : ConnectionClass Store)
    (self : Lazy.WorkingHourManager) (c : call) (w : World Store) :
  conn_new C = None ->
  match c with
  | CallLog _ => True
  | _ =>
      let p := fst (conn_execute C (call_query c)
                      (call_params (Lazy.employee_id self) c) (proc w)) in
      proc (fst (snd (lazy_call C self c w))) =
        match snd (snd (lazy_call C self c w)) with
        | Returns _ => conn_close C (conn_commit C p)
        | Raises _ => p
        end
  end.
Proof.
  intros Hnew.
  destruct c; [exact I| |]; cbv zeta; rewrite (lazy_call_opened C _ _ _ Hnew);
    unfold lazy_body, Lazy.total_body, Lazy.salary_body, Lazy.the_connection, after_open,
      released, commit, close, bind, execute, record_call, fetchone, ret, raise, lift; simpl.
  - destruct (conn_execute C _ _ _) as [pr [[|rows]|ex]]; reflexivity.
  - destruct (conn_execute C _ _ _) as [pr [[|rows]|ex]]; simpl; try reflexivity.
    destruct (unpack2 (hd VNone rows)) as [pr2|ex]; simpl; try reflexivity.
    destruct (py_mul _ _); reflexivity.
Qed.

(** X15: [total] and [salary] only read.  On the store, whatever its tables
    and whatever the outcome, a call of [total] or [salary] leaves the tables
    and standard output exactly as they were, in both versions. *)
Theorem total_and_salary_leave_the_store_unchanged :
  forall (rf : list value -> value) (w : World Sql.database),
    (forall self, proc (fst (Eager.total (Sql.SqlConnection rf) self w)) = proc w) /\
    (forall self date_from date_to,
        proc (fst (Eager.salary (Sql.SqlConnection rf) self date_from date_to w)) = proc w) /\
    (forall self, proc (fst (snd (Lazy.total (Sql.SqlConnection rf) self w))) = proc w) /\
    (forall self date_from date_to,
        proc (fst (snd (Lazy.salary (Sql.SqlConnection rf) self date_from date_to w)))
          = proc w).
Proof.
  intros rf w. split; [|split; [|split]]; intros.
  - pose proof (eager_call_proc (Sql.SqlConnection rf) self CallTotal w) as H.
    change (eager_call (Sql.SqlConnection rf) self CallTotal w)
      with (Eager.total (Sql.SqlConnection rf) self w) in H.
    rewrite H. simpl conn_execute. apply sql_execute_total_query_proc.
  - pose proof (eager_call_proc (Sql.SqlConnection rf) self
                  (CallSalary date_from date_to) w) as H.
    change (eager_call (Sql.SqlConnection rf) self (CallSalary date_from date_to) w)
      with (Eager.salary (Sql.SqlConnection rf) self date_from date_to w) in H.
    rewrite H. simpl conn_execute. rewrite sql_execute_salary_query. reflexivity.
  - pose proof (lazy_call_proc (Sql.SqlConnection rf) self CallTotal w eq_refl) as H.
    cbv zeta in H. change (lazy_call (Sql.SqlConnection rf) self CallTotal w)
      with (Lazy.total (Sql.SqlConnection rf) self w) in H.
    rewrite H. simpl conn_execute. simpl conn_close. simpl conn_commit.
    rewrite sql_execute_total_query_proc.
    destruct (snd (snd (Lazy.total (Sql.SqlConnection rf) self w))); reflexivity.
  - pose proof (lazy_call_proc (Sql.SqlConnection rf) self
                  (CallSalary date_from date_to) w eq_refl) as H.
    cbv zeta in H.
    change (lazy_call (Sql.SqlConnection rf) self (CallSalary date_from date_to) w)
      with (Lazy.salary (Sql.SqlConnection rf) self date_from date_to w) in H.
    rewrite H. simpl conn_execute. simpl conn_close. simpl conn_commit.
    rewrite sql_execute_salary_query.
    destruct (snd (snd (Lazy.salary (Sql.SqlConnection rf) self date_from date_to w)));
      reflexivity.
Qed.

(** X16: which connections the second version leaves open.  Over any
    sequence of calls on one manager, whatever the connection class, the
    connections closed are exactly those of the calls that returned, in
    order; the connection of every call that raised is never closed. *)
Theorem lazy_calls_close_exactly_the_returned :
  forall (Store : Type) (C : ConnectionClass Store) (cs : list call)
         (self : Lazy.WorkingHourManager) (w : World Store),
    closed (new_calls w (snd (lazy_calls C self cs w))) =
      List.map fst (List.filter (fun r => returned (snd r)) (lazy_results C self cs w)).
Proof.
  intros Store C cs.
  assert (H : forall (self : Lazy.WorkingHourManager) (w : World Store),
             exists evs, calls (snd (lazy_calls C self cs w)) = calls w ++ evs /\
                         closed evs =
                           List.map fst (List.filter (fun r => returned (snd r))
                                                     (lazy_results C self cs w))).
  { induction cs as [|c cs IH]; intros self w; simpl.
    - exists []. rewrite app_nil_r. auto.
    - destruct (conn_new C) as [ex|] eqn:Hnew.
      + rewrite (lazy_call_refused C self c w ex Hnew). simpl. apply IH.
      + destruct (lazy_call_calls C self c w Hnew) as (_ & _ & Hcalls).
        destruct (IH (fst (lazy_call C self c w)) (fst (snd (lazy_call C self c w))))
          as (evs & Hevs & Hclosed).
        eexists. rewrite Hevs, Hcalls, <- app_assoc. split; [reflexivity|].
        unfold closed in *. rewrite !flat_map_app, Hclosed.
        destruct (snd (snd (lazy_call C self c w))); reflexivity. }
  intros self w. destruct (H self w) as (evs & Hevs & Hclosed).
  erewrite new_calls_app by exact Hevs. exact Hclosed.
Qed.

(** X17: an [int] beyond 64 bits cannot be stored.  On a store whose
    [working_log] has the column [time], for an employee that can be bound
    and a duration that is an [int] outside 64 bits, [log] raises
    [OverflowError] in both versions and the tables are as before; in the
    second version the connection opened for the call is neither committed
    nor closed. *)
Theorem log_of_an_oversized_duration_overflows :
  forall (rf : list value -> value) (logs rates : list (list Sql.sqlval))
         (E : value) (e : Sql.sqlval) (z : Z) (w : World Sql.database),
    store (proc w) = wide_store logs rates ->
    Sql.bind_param E = Some e ->
    Sql.fits_int64 z = false ->
    (forall n,
        let r := Eager.log (Sql.SqlConnection rf) (Eager.mkManager n E) (VInt z) w in
        snd r = Raises OverflowError /\ store (proc (fst r)) = wide_store logs rates) /\
    (forall c,
        let n := next_conn w in
        let r := Lazy.log (Sql.SqlConnection rf) (Lazy.mkManager c E) (VInt z) w in
        snd (snd r) = Raises OverflowError /\
        store (proc (fst (snd r))) = wide_store logs rates /\
        new_calls w (fst (snd r)) = [EvOpen n; EvExecute n log_query [E; VInt z]]).
Proof.
  intros rf logs rates E e z w Hw HE Hz. split; intros x; cbv zeta.
  - rewrite eager_log_outcome, eager_log_proc. simpl conn_execute. simpl Eager.employee_id.
    rewrite (sql_execute_log_oversized rf E e z logs rates) by assumption.
    split; [reflexivity|exact Hw].
  - assert (Hout : snd (snd (Lazy.log (Sql.SqlConnection rf) (Lazy.mkManager x E)
                                (VInt z) w)) = Raises OverflowError).
    { rewrite lazy_log_outcome, decorated_sql. simpl conn_execute. simpl Lazy.employee_id.
      rewrite (sql_execute_log_oversized rf E e z logs rates) by assumption.
      reflexivity. }
    split; [exact Hout|]. split.
    + rewrite lazy_log_proc. simpl Lazy.employee_id.
      rewrite (sql_execute_log_oversized rf E e z logs rates) by assumption. exact Hw.
    + destruct (lazy_call_calls (Sql.SqlConnection rf) (Lazy.mkManager x E)
                  (CallLog (VInt z)) w eq_refl) as (_ & _ & Hcalls).
      change (lazy_call (Sql.SqlConnection rf) (Lazy.mkManager x E) (CallLog (VInt z)) w)
        with (Lazy.log (Sql.SqlConnection rf) (Lazy.mkManager x E) (VInt z) w) in Hcalls.
      rewrite Hout in Hcalls.
      erewrite new_calls_app by exact Hcalls. reflexivity.
Qed.

(** X17 for employee 1 logging 2^70 seconds on an empty store that has the
    column. *)
Lemma log_of_an_oversized_duration_overflows_witness :
  let w := initial_world (wide_store [] []) in
  (forall n,
      let r := Eager.log (Sql.SqlConnection Sql.tuple_row) (Eager.mkManager n (VInt 1))
                 (VInt (2 ^ 70)) w in
      snd r = Raises OverflowError /\ store (proc (fst r)) = wide_store [] []) /\
  (forall c,
      let n := next_conn w in
      let r := Lazy.log (Sql.SqlConnection Sql.tuple_row) (Lazy.mkManager c (VInt 1))
                 (VInt (2 ^ 70)) w in
      snd (snd r) = Raises OverflowError /\
      store (proc (fst (snd r))) = wide_store [] [] /\
      new_calls w (fst (snd r)) = [EvOpen n; EvExecute n log_query [VInt 1; VInt (2 ^ 70)]]).
Proof.
  apply (log_of_an_oversized_duration_overflows Sql.tuple_row [] [] (VInt 1) (Sql.IntV 1)
           (2 ^ 70) (initial_world (wide_store [] [])));
    reflexivity.
Defined.

(** X18: [salary] multiplies what it fetched, unguarded.  Whatever the
    connection class, when the row fetched holds [None] as the sum next to
    the rate, or when no row is fetched, [salary] raises [TypeError] in both
    versions; in the second version, unless [Connection()] raises, and then
    nothing is fetched. *)
Theorem salary_raises_on_a_null_sum :
  forall (Store : Type) (C : ConnectionClass Store) (e date_from date_to : value)
         (w : World Store) (rows : list value),
    snd (conn_execute C salary_query [e; date_from; date_to; e] (proc w))
      = Returns (Cursor rows) ->
    (hd VNone rows = VNone \/ exists rate, hd VNone rows = VTuple [VNone; rate]) ->
    (forall n, snd (Eager.salary C (Eager.mkManager n e) date_from date_to w)
                 = Raises TypeError) /\
    (forall c, snd (snd (Lazy.salary C (Lazy.mkManager c e) date_from date_to w))
                 = decorated C (Raises TypeError)).
Proof.
  intros Store C e date_from date_to w rows H Hrow.
  assert (Hout : salary_outcome (Returns (Cursor rows)) = Raises TypeError).
  { unfold salary_outcome. destruct Hrow as [-> | [rate ->]]; reflexivity. }
  split; intros.
  - rewrite eager_salary_outcome. simpl Eager.employee_id. rewrite H. exact Hout.
  - rewrite lazy_salary_outcome. simpl Lazy.employee_id. rewrite H, Hout. reflexivity.
Qed.

(** X18 for employee 1 with a rate of 20 and no logged seconds, on a store
    behind a driver that takes the text as it is meant. *)
Lemma salary_raises_on_a_null_sum_witness :
  let w := initial_world (spec_store [] [[Sql.IntV 1; Sql.IntV 20]]) in
  (forall n, snd (Eager.salary (MendingConnection Sql.tuple_row)
                    (Eager.mkManager n (VInt 1)) (VInt 0) (VInt 86400) w)
               = Raises TypeError) /\
  (forall c, snd (snd (Lazy.salary (MendingConnection Sql.tuple_row)
                    (Lazy.mkManager c (VInt 1)) (VInt 0) (VInt 86400) w))
               = Raises TypeError).
Proof.
  apply (salary_raises_on_a_null_sum Sql.database (MendingConnection Sql.tuple_row)
           (VInt 1) (VInt 0) (VInt 86400)
           (initial_world (spec_store [] [[Sql.IntV 1; Sql.IntV 20]]))
           [VTuple [VNone; VInt 20]]).
  - vm_compute. reflexivity.
  - right. exists (VInt 20). reflexivity.
Defined.
